(** * Translation backend (backend/main.py): token oracle, boundary chunker,
      chunk orchestration, reassembly and the /translate handler.

    The Python code is embedded shallowly.  A Python [str] is a sequence of
    Unicode code points, so a character is its code point (an [N]) and a
    string is a list of them; Python integers are [Z]; the HuggingFace
    tokenizer and the NLLB generation pipeline are external collaborators and
    enter as values of the types [Tokenizer] and [Translator]. *)

From Stdlib Require Import String Ascii DecimalString.
From Stdlib Require Import List ZArith NArith Lia Bool Arith.
Import ListNotations.

#[local] Open Scope list_scope.

#[local] Open Scope Z_scope.

(** ** Python strings and the built-ins the backend uses *)

Module Py.

Abbreviation char := N (only parsing).
Abbreviation str := (list N) (only parsing).

(** An ASCII literal of the source, as a Python string. *)
Definition lit (s : string) : str := map N_of_ascii (list_ascii_of_string s).

Definition NL : char := 10%N.

Definition len (s : str) : Z := Z.of_nat (length s).

Definition eqb (a b : str) : bool :=
  if list_eq_dec N.eq_dec a b then true else false.

(** [bool(s)]: a string is truthy when it is not empty. *)
Definition truthy (s : str) : bool :=
  match s with [] => false | _ :: _ => true end.

(** [ch.isspace()], the characters CPython's [_PyUnicode_IsWhitespace]
    accepts; [str.strip()] without argument removes exactly these. *)
Definition isspace (c : char) : bool :=
  ((9 <=? c) && (c <=? 13) || (28 <=? c) && (c <=? 32)
   || (c =? 133) || (c =? 160) || (c =? 5760)
   || (8192 <=? c) && (c <=? 8202)
   || (c =? 8232) || (c =? 8233) || (c =? 8239) || (c =? 8287)
   || (c =? 12288))%N.

Fixpoint lstrip (s : str) : str :=
  match s with
  | [] => []
  | c :: t => if isspace c then lstrip t else s
  end.

Definition rstrip (s : str) : str := rev (lstrip (rev s)).

Definition strip (s : str) : str := lstrip (rstrip s).

(** Slice bounds: a negative bound counts from the end, and every bound is
    clamped into [0 .. len s], as [PySlice_AdjustIndices] does. *)
Definition clamp (n : Z) (k : Z) : nat :=
  Z.to_nat (if k <? 0 then Z.max 0 (n + k) else Z.min k n).

(** [s[:k]], [s[k:]] and [s[a:b]]. *)
Definition upto (s : str) (k : Z) : str := firstn (clamp (len s) k) s.
Definition from (s : str) (k : Z) : str := skipn (clamp (len s) k) s.
Definition slice (s : str) (a b : Z) : str :=
  let i := clamp (len s) a in
  let j := clamp (len s) b in
  firstn (j - i) (skipn i s).

(** [s[i]] for an index the source keeps inside [0 .. len s - 1]. *)
Definition item (s : str) (i : Z) : char := nth (Z.to_nat i) s 0%N.

(** [c in chars] for a one-character [c]. *)
Definition char_in (c : char) (chars : str) : bool := existsb (N.eqb c) chars.

Fixpoint startswith (s prefix : str) : bool :=
  match prefix, s with
  | [], _ => true
  | _ :: _, [] => false
  | p :: ps, c :: cs => (N.eqb p c) && startswith cs ps
  end.

(** [s.find(sub)]: the lowest index where [sub] occurs, [None] for -1. *)
Fixpoint find_from (sub s : str) (i : nat) : option nat :=
  if startswith s sub then Some i
  else match s with
       | [] => None
       | _ :: t => find_from sub t (S i)
       end.

Definition find (sub s : str) : option nat := find_from sub s 0.

(** [sub in s]. *)
Definition contains (sub s : str) : bool :=
  match find sub s with Some _ => true | None => false end.

(** [s.rfind(sub, start, end)]: the highest index [i] with
    [start <= i], [i + len sub <= end] and [s[i:i+len sub] == sub];
    -1 when there is none.  [k] candidates remain below [lo + k]. *)
Fixpoint rfind_scan (sub s : str) (lo : nat) (k : nat) : Z :=
  match k with
  | O => -1
  | S k' =>
      if startswith (skipn (lo + k') s) sub then Z.of_nat (lo + k')
      else rfind_scan sub s lo k'
  end.

Definition rfind (sub s : str) (start stop : Z) : Z :=
  let i := clamp (len s) start in
  let j := clamp (len s) stop in
  rfind_scan sub s i (S j - length sub - i).

(** [sep.join(parts)]. *)
Fixpoint join (sep : str) (parts : list str) : str :=
  match parts with
  | [] => []
  | [p] => p
  | p :: rest => p ++ sep ++ join sep rest
  end.

(** [s.split(sep)] for a non-empty [sep]: scan left to right, cutting at
    each occurrence that does not overlap the previous one.  [skip] counts
    the characters of a matched separator still to be passed over and [cur]
    holds the current piece, reversed. *)
Fixpoint split_go (sep s : str) (skip : nat) (cur : str) : list str :=
  match s with
  | [] => [rev cur]
  | c :: t =>
      match skip with
      | S k => split_go sep t k cur
      | O =>
          if startswith s sep
          then rev cur :: split_go sep t (length sep - 1) []
          else split_go sep t 0 (c :: cur)
      end
  end.

Definition split (sep s : str) : list str := split_go sep s 0 [].

(** [s.replace(old, new, count)] for a non-empty [old] and [count >= 0]:
    the first [count] occurrences, found left to right without overlap. *)
Fixpoint replace_go (old new s : str) (skip : nat) (count : nat) : str :=
  match s with
  | [] => []
  | c :: t =>
      match skip with
      | S k => replace_go old new t k count
      | O =>
          match count with
          | O => s
          | S n =>
              if startswith s old
              then new ++ replace_go old new t (length old - 1) n
              else c :: replace_go old new t 0 count
          end
      end
  end.

Definition replace (s old new : str) (count : Z) : str :=
  replace_go old new s 0 (Z.to_nat count).

(** [str(n)] for a non-negative integer. *)
Definition of_nat (n : nat) : str := lit (NilEmpty.string_of_uint (Nat.to_uint n)).

End Py.

Abbreviation pystr := (list N).

(** ** Numbers returned by [get_token_count]

    [len(encoded)] and [len(text) // 4] are Python ints; [len(text) // 2.5]
    is a Python float.  Floor division by a float always yields a float with
    an integral value, and for a dividend below 2^53 the quotient by 2.5
    (exactly representable) is exact, so such a float is recorded by the
    integer it equals. *)
Inductive pynum : Type :=
| PyInt (z : Z)
| PyFloat (z : Z).

Definition value (x : pynum) : Z :=
  match x with PyInt z => z | PyFloat z => z end.

Definition is_int (x : pynum) : bool :=
  match x with PyInt _ => true | PyFloat _ => false end.

(** [x <= n] and [x > n] between a count and an int compare the values. *)
Definition le_int (x : pynum) (n : Z) : bool := value x <=? n.
Definition gt_int (x : pynum) (n : Z) : bool := n <? value x.

(** ** Configuration *)

Definition MAX_TEXT_LENGTH : Z := 5000.
Definition MAX_INPUT_TOKENS : Z := 1024.

(** ** Collaborators *)

(** [tokenizer.src_lang = source_lang; tokenizer.encode(text,
    add_special_tokens=False)]: the token ids, or [None] when either
    statement raises.  The first argument is the value assigned to
    [src_lang], a string or Python's [None]. *)
Record Tokenizer : Type := mkTokenizer {
  encode : option pystr -> pystr -> option (list Z)
}.

(** ** get_token_count *)

(** The [except Exception] branch. *)
Definition fallback_count (text source_lang : pystr) : pynum :=
  if Py.startswith source_lang (Py.lit "khm_")
     || Py.startswith source_lang (Py.lit "zho_")
     || Py.startswith source_lang (Py.lit "jpn_")
  then PyFloat ((2 * Py.len text) / 5)
  else PyInt (Py.len text / 4).

(** The global [tokenizer] is [None] until start-up has loaded it; the
    attribute assignment on [None] raises inside the [try] as well. *)
Definition get_token_count (tokenizer : option Tokenizer)
    (text source_lang : pystr) : pynum :=
  match tokenizer with
  | None => fallback_count text source_lang
  | Some t =>
      match encode t (Some source_lang) text with
      | Some encoded => PyInt (Z.of_nat (length encoded))
      | None => fallback_count text source_lang
      end
  end.

(** ** split_text_into_chunks

    The parameter [overlap] is never read by the function and is left out. *)

Section Chunker.

Variable tokenizer : option Tokenizer.
Variable source_lang : pystr.
Variable max_tokens : Z.

(** [safe_max_tokens = max_tokens - 50] *)
Definition safe_max_tokens : Z := max_tokens - 50.

(** ['.!?\n។。！？\n'] *)
Definition sentence_endings : pystr :=
  [46; 33; 63; 10; 6100; 12290; 65281; 65311; 10]%N.

Definition is_khmer : bool := Py.startswith source_lang (Py.lit "khm_").

(** [get_token_count(s, source_lang) <= safe_max_tokens] *)
Definition fits (s : pystr) : bool :=
  le_int (get_token_count tokenizer s source_lang) safe_max_tokens.

(** The [while low <= high] loop, used on [remaining] and again on an
    oversized [chunk_text].  The pair is [(chunk_text, best_break)], resp.
    [(safe_chunk, safe_length)].  [fuel] bounds the iterations; the range
    [low .. high] loses an element each time, so [high - low + 1] is
    enough (lemma [bsearch_fuel]). *)
Fixpoint bsearch (s : pystr) (fuel : nat) (low high : Z)
    (chunk_text : pystr) (best_break : Z) : pystr * Z :=
  match fuel with
  | O => (chunk_text, best_break)
  | S f =>
      if low <=? high then
        let mid := (low + high) / 2 in
        let test_chunk := Py.upto s mid in
        if fits test_chunk
        then bsearch s f (mid + 1) high test_chunk mid
        else bsearch s f low (mid - 1) chunk_text best_break
      else (chunk_text, best_break)
  end.

(** [low, high = 1, len(s)] with nothing found yet. *)
Definition binary_search (s : pystr) : pystr * Z :=
  bsearch s (length s) 1 (Py.len s) [] 0.

(** [for i in range(len(search_text) - 1, -1, -1)]: the value of
    [last_sentence_end] when the loop is left, [n] indices still to visit. *)
Fixpoint scan_back (search_text : pystr) (search_start : Z) (n : nat) : Z :=
  match n with
  | O => -1
  | S n' =>
      let i := Z.of_nat n' in
      if Py.char_in (Py.item search_text i) sentence_endings
         && ((i =? Py.len search_text - 1)
             || ((i + 1 <? Py.len search_text)
                 && Py.isspace (Py.item search_text (i + 1))))
      then search_start + i + 1
      else scan_back search_text search_start n'
  end.

(** The branch [if chunk_text and best_break > 0]: the new
    [(chunk_text, remaining)].  [space_pos > search_start * 0.8] compares an
    int with a float product; on integers it holds exactly when
    [5 * space_pos > 4 * search_start]. *)
Definition cut_fitting (remaining chunk_text : pystr) (best_break : Z)
    : pystr * pystr :=
  let search_start := Z.max 0 (best_break - best_break / 5) in
  let search_text := Py.slice remaining search_start best_break in
  let last_sentence_end :=
    scan_back search_text search_start (length search_text) in
  if search_start <? last_sentence_end then
    (Py.strip (Py.upto remaining last_sentence_end),
     Py.strip (Py.from remaining last_sentence_end))
  else if negb is_khmer then
    let space_pos :=
      Py.rfind (Py.lit " ") chunk_text search_start (Py.len chunk_text) in
    if 4 * search_start <? 5 * space_pos then
      (Py.strip (Py.upto remaining space_pos),
       Py.strip (Py.from remaining space_pos))
    else
      (Py.strip chunk_text, Py.strip (Py.from remaining best_break))
  else
    (Py.strip chunk_text, Py.strip (Py.from remaining best_break)).

(** [for i in range(fallback_length - 1, max(0, fallback_length - 500), -1)]:
    the index at which the loop breaks, [None] when it runs to its [else].
    The indices still to visit are [lo + k, ..., lo + 1]. *)
Fixpoint scan_fallback (remaining : pystr) (lo : Z) (k : nat) : option Z :=
  match k with
  | O => None
  | S k' =>
      let i := lo + Z.of_nat k in
      if Py.char_in (Py.item remaining i) sentence_endings
         && ((i <? Py.len remaining - 1)
             && Py.isspace (Py.item remaining (i + 1)))
      then Some i
      else scan_fallback remaining lo k'
  end.

(** The [else] branch: no prefix fitted. *)
Definition cut_fallback (remaining : pystr) : pystr * pystr :=
  let fallback_length := Z.min (Py.len remaining) (safe_max_tokens * 2) in
  let lo := Z.max 0 (fallback_length - 500) in
  match scan_fallback remaining lo (Z.to_nat (fallback_length - 1 - lo)) with
  | Some i =>
      (Py.strip (Py.upto remaining (i + 1)),
       Py.strip (Py.from remaining (i + 1)))
  | None =>
      if negb is_khmer then
        let space_pos := Py.rfind (Py.lit " ") remaining 0 fallback_length in
        if 0 <? space_pos then
          (Py.strip (Py.upto remaining space_pos),
           Py.strip (Py.from remaining space_pos))
        else
          (Py.strip (Py.upto remaining fallback_length),
           Py.strip (Py.from remaining fallback_length))
      else
        (Py.strip (Py.upto remaining fallback_length),
         Py.strip (Py.from remaining fallback_length))
  end.

(** Lines 197-281: from [remaining] to [(chunk_text, remaining)]. *)
Definition cut (remaining : pystr) : pystr * pystr :=
  let '(chunk_text, best_break) := binary_search remaining in
  if Py.truthy chunk_text && (0 <? best_break)
  then cut_fitting remaining chunk_text best_break
  else cut_fallback remaining.

(** Lines 285-314, the re-measurement of a non-empty [chunk_text].  Both
    branches rebind [chunk_text] first and slice the rebound value when they
    update [remaining].  [int(len(chunk_text) * 0.8)] is
    [4 * len(chunk_text) // 5] for every length a string can have. *)
Definition verify (chunk_text remaining : pystr) : pystr * pystr :=
  let chunk_tokens := get_token_count tokenizer chunk_text source_lang in
  if gt_int chunk_tokens safe_max_tokens then
    let '(safe_chunk, safe_length) := binary_search chunk_text in
    if Py.truthy safe_chunk then
      let chunk_text' := Py.strip safe_chunk in
      (chunk_text', Py.from chunk_text' safe_length ++ remaining)
    else
      let reduced_length := (4 * Py.len chunk_text) / 5 in
      let chunk_text' := Py.strip (Py.upto chunk_text reduced_length) in
      (chunk_text', Py.from chunk_text' reduced_length ++ remaining)
  else (chunk_text, remaining).

(** One pass through the body of [while remaining]. *)
Definition iteration (remaining : pystr) (chunks : list pystr)
    : pystr * list pystr :=
  let '(chunk_text, remaining1) := cut remaining in
  if Py.truthy chunk_text then
    let '(chunk_text', remaining2) := verify chunk_text remaining1 in
    (remaining2, chunks ++ [chunk_text'])
  else (remaining1, chunks).

(** [while remaining: ...; return chunks].  [None] means that [fuel]
    passes did not empty [remaining]. *)
Fixpoint split_loop (fuel : nat) (remaining : pystr) (chunks : list pystr)
    {struct fuel} : option (list pystr) :=
  match remaining with
  | [] => Some chunks
  | _ :: _ =>
      match fuel with
      | O => None
      | S f =>
          let '(remaining', chunks') := iteration remaining chunks in
          split_loop f remaining' chunks'
      end
  end.

Definition split_text_into_chunks (fuel : nat) (text : pystr)
    : option (list pystr) :=
  let token_count := get_token_count tokenizer text source_lang in
  if le_int token_count safe_max_tokens then Some [text]
  else split_loop fuel (Py.strip text) [].

(** *** Vocabulary of the loop's invariants *)

(** What the search keeps between iterations: the candidate is the prefix
    of length [best_break], or nothing has been found yet. *)
Definition kept (s chunk_text : pystr) (best_break : Z) : Prop :=
  (chunk_text = [] /\ best_break = 0)
  \/ (1 <= best_break /\ chunk_text = Py.upto s best_break
      /\ fits chunk_text = true).

(** What makes a pass certain to cut something off: a positive budget, or
    an oracle under which the first character of the text fits. *)
Definition can_cut (remaining : pystr) : Prop :=
  1 <= safe_max_tokens \/ fits (Py.upto remaining 1) = true.

End Chunker.

(** ** translate_chunk, the per-chunk loop and the reassembly *)

(** What a call inside a [try] can raise: the handler tells [KeyError]
    from every other [Exception]; [msg] is [str(e)]. *)
Inductive exn : Type :=
| KeyError (msg : pystr)
| Exception (msg : pystr).

(** [translate_chunk(text_chunk, source_lang, target_lang)] only drives the
    tokenizer and [model.generate]; with [do_sample=False] its outcome is a
    function of its arguments.  The loaded model is that function. *)
Record Model : Type := mkModel {
  translate_chunk : Tokenizer -> pystr -> option pystr -> pystr -> exn + pystr
}.

(** The module-level [model] and [tokenizer], [None] before start-up. *)
Record Globals : Type := mkGlobals {
  model : option Model;
  tokenizer : option Tokenizer
}.

(** [source_lang] is declared [Optional[str]]: a request can carry a string
    or, sent as JSON [null], Python's [None]. *)
Module TranslationRequest.
Record t : Type := mk {
  text : pystr;
  source_lang : option pystr;
  target_lang : pystr
}.
End TranslationRequest.

Module TranslationResponse.
Record t : Type := mk {
  translated_text : pystr;
  source_lang : pystr;
  target_lang : pystr
}.
End TranslationResponse.

(** The outcome of the handler: the response model, or the
    [HTTPException] it raises. *)
Inductive http : Type :=
| Response (r : TranslationResponse.t)
| HTTPException (status_code : Z) (detail : pystr).

(** [f"[Translation error in chunk {i+1}]"] *)
Definition error_placeholder (i : nat) : pystr :=
  Py.lit "[Translation error in chunk " ++ Py.of_nat (i + 1) ++ Py.lit "]".

Section Orchestration.

Variable m : Model.
Variable tok : Tokenizer.
Variable source_lang : option pystr.
Variable target_lang : pystr.

(** [for i, chunk in enumerate(chunks)] with its inner [try]/[except];
    [i] is the index of the head of [chunks]. *)
Fixpoint translate_loop (i : nat) (chunks translated_chunks : list pystr)
    : list pystr :=
  match chunks with
  | [] => translated_chunks
  | chunk :: rest =>
      match translate_chunk m tok chunk source_lang target_lang with
      | inr translated_chunk =>
          translate_loop (S i) rest (translated_chunks ++ [translated_chunk])
      | inl _ =>
          translate_loop (S i) rest (translated_chunks ++ [error_placeholder i])
      end
  end.

Definition translate_chunks (chunks : list pystr) : list pystr :=
  translate_loop 0 chunks [].

(** What the loop stores for the chunk at (0-based) index [k]. *)
Definition stored (k : nat) (chunk : pystr) : pystr :=
  match translate_chunk m tok chunk source_lang target_lang with
  | inr translated_chunk => translated_chunk
  | inl _ => error_placeholder k
  end.

End Orchestration.

Definition double_newline : pystr := [Py.NL; Py.NL].

(** Lines 401-410. *)
Definition reassemble (translated_chunks : list pystr) (text : pystr) : pystr :=
  let translated_text := Py.join (Py.lit " ") translated_chunks in
  if Py.contains double_newline text then
    let original_paragraphs := Py.split double_newline text in
    if (1 <? length original_paragraphs)%nat then
      Py.replace translated_text (Py.lit ". ") (Py.lit "." ++ double_newline)
        (Z.of_nat (length original_paragraphs) - 1)
    else translated_text
  else translated_text.

(** ** The /translate handler *)

Definition detail_not_loaded : pystr :=
  Py.lit "Translation model is not loaded. Please wait for the model to initialize.".

Definition detail_too_long : pystr :=
  Py.lit "Text too long. Maximum length is "
  ++ Py.of_nat (Z.to_nat MAX_TEXT_LENGTH) ++ Py.lit " characters.".

Definition detail_empty : pystr := Py.lit "Text cannot be empty.".

Definition detail_invalid_language (e : pystr) : pystr :=
  Py.lit "Invalid language code: " ++ e
  ++ Py.lit ". Please check source_lang and target_lang.".

Definition detail_failed (e : pystr) : pystr :=
  Py.lit "Translation failed: " ++ e.

(** [len(request.text) > MAX_TEXT_LENGTH] *)
Definition text_too_long (request : TranslationRequest.t) : bool :=
  MAX_TEXT_LENGTH <? Py.len (TranslationRequest.text request).

(** The handler's own [safe_max_tokens = MAX_INPUT_TOKENS - 50]. *)
Definition handler_safe_max_tokens : Z := MAX_INPUT_TOKENS - 50.

(** *** The same code when [source_lang] is [None]

    Nothing in the handler or the chunker tests [source_lang]; with [None]
    the statements that use it as a string raise.
    [source_lang.startswith(...)] raises [AttributeError], in the [except]
    branch of [get_token_count] and where the chunker asks for a word
    boundary. *)

(** The [AttributeError] of [None.startswith]; the message is CPython's. *)
Definition no_startswith : exn :=
  Exception (Py.lit "'NoneType' object has no attribute 'startswith'").

(** [str(e)] *)
Definition message (e : exn) : pystr :=
  match e with KeyError msg => msg | Exception msg => msg end.

Section NoSourceLanguage.

Variable tokenizer : option Tokenizer.
Variable max_tokens : Z.

(** [get_token_count(text, None)]: the count, or the [AttributeError] the
    [except] branch raises itself. *)
Definition get_token_count_none (text : pystr) : exn + pynum :=
  match tokenizer with
  | None => inl no_startswith
  | Some t =>
      match encode t None text with
      | Some encoded => inr (PyInt (Z.of_nat (length encoded)))
      | None => inl no_startswith
      end
  end.

(** The [while low <= high] loop; a failing count leaves it. *)
Fixpoint bsearch_none (s : pystr) (fuel : nat) (low high : Z)
    (chunk_text : pystr) (best_break : Z) : exn + (pystr * Z) :=
  match fuel with
  | O => inr (chunk_text, best_break)
  | S f =>
      if low <=? high then
        let mid := (low + high) / 2 in
        let test_chunk := Py.upto s mid in
        match get_token_count_none test_chunk with
        | inl e => inl e
        | inr test_tokens =>
            if le_int test_tokens (safe_max_tokens max_tokens)
            then bsearch_none s f (mid + 1) high test_chunk mid
            else bsearch_none s f low (mid - 1) chunk_text best_break
        end
      else inr (chunk_text, best_break)
  end.

Definition binary_search_none (s : pystr) : exn + (pystr * Z) :=
  bsearch_none s (length s) 1 (Py.len s) [] 0.

(** The branch [if chunk_text and best_break > 0]: a sentence boundary is
    used as before; without one, [source_lang.startswith('khm_')]
    raises. *)
Definition cut_fitting_none (remaining : pystr) (best_break : Z)
    : exn + (pystr * pystr) :=
  let search_start := Z.max 0 (best_break - best_break / 5) in
  let search_text := Py.slice remaining search_start best_break in
  let last_sentence_end :=
    scan_back search_text search_start (length search_text) in
  if search_start <? last_sentence_end then
    inr (Py.strip (Py.upto remaining last_sentence_end),
         Py.strip (Py.from remaining last_sentence_end))
  else inl no_startswith.

(** The [else] branch: the [for] loop, then its [else] raises. *)
Definition cut_fallback_none (remaining : pystr) : exn + (pystr * pystr) :=
  let fallback_length :=
    Z.min (Py.len remaining) (safe_max_tokens max_tokens * 2) in
  let lo := Z.max 0 (fallback_length - 500) in
  match scan_fallback remaining lo (Z.to_nat (fallback_length - 1 - lo)) with
  | Some i =>
      inr (Py.strip (Py.upto remaining (i + 1)),
           Py.strip (Py.from remaining (i + 1)))
  | None => inl no_startswith
  end.

Definition cut_none (remaining : pystr) : exn + (pystr * pystr) :=
  match binary_search_none remaining with
  | inl e => inl e
  | inr (chunk_text, best_break) =>
      if Py.truthy chunk_text && (0 <? best_break)
      then cut_fitting_none remaining best_break
      else cut_fallback_none remaining
  end.

(** Lines 285-314. *)
Definition verify_none (chunk_text remaining : pystr)
    : exn + (pystr * pystr) :=
  match get_token_count_none chunk_text with
  | inl e => inl e
  | inr chunk_tokens =>
      if gt_int chunk_tokens (safe_max_tokens max_tokens) then
        match binary_search_none chunk_text with
        | inl e => inl e
        | inr (safe_chunk, safe_length) =>
            if Py.truthy safe_chunk then
              let chunk_text' := Py.strip safe_chunk in
              inr (chunk_text', Py.from chunk_text' safe_length ++ remaining)
            else
              let reduced_length := (4 * Py.len chunk_text) / 5 in
              let chunk_text' := Py.strip (Py.upto chunk_text reduced_length) in
              inr (chunk_text', Py.from chunk_text' reduced_length ++ remaining)
        end
      else inr (chunk_text, remaining)
  end.

(** One pass.  The log line after [chunks.append] (line 317) formats
    [get_token_count(chunk_text, source_lang)], one more count that can
    raise. *)
Definition iteration_none (remaining : pystr) (chunks : list pystr)
    : exn + (pystr * list pystr) :=
  match cut_none remaining with
  | inl e => inl e
  | inr (chunk_text, remaining1) =>
      if Py.truthy chunk_text then
        match verify_none chunk_text remaining1 with
        | inl e => inl e
        | inr (chunk_text', remaining2) =>
            match get_token_count_none chunk_text' with
            | inl e => inl e
            | inr _ => inr (remaining2, chunks ++ [chunk_text'])
            end
        end
      else inr (remaining1, chunks)
  end.

(** [None]: [fuel] passes did not end the loop; [Some (inl e)]: [e] was
    raised; [Some (inr chunks)]: [chunks] was returned. *)
Fixpoint split_loop_none (fuel : nat) (remaining : pystr)
    (chunks : list pystr) {struct fuel} : option (exn + list pystr) :=
  match remaining with
  | [] => Some (inr chunks)
  | _ :: _ =>
      match fuel with
      | O => None
      | S f =>
          match iteration_none remaining chunks with
          | inl e => Some (inl e)
          | inr (remaining', chunks') => split_loop_none f remaining' chunks'
          end
      end
  end.

(** [split_text_into_chunks(text, None, max_tokens)] *)
Definition split_text_into_chunks_none (fuel : nat) (text : pystr)
    : option (exn + list pystr) :=
  match get_token_count_none text with
  | inl e => Some (inl e)
  | inr token_count =>
      if le_int token_count (safe_max_tokens max_tokens) then Some (inr [text])
      else split_loop_none fuel (Py.strip text) []
  end.

End NoSourceLanguage.

(** The per-chunk loop of the handler with [source_lang = None]: the count
    for the log line (line 384) stands outside the inner [try]. *)
Fixpoint translate_loop_none (m : Model) (tok : Tokenizer)
    (target_lang : pystr) (i : nat) (chunks translated_chunks : list pystr)
    : exn + list pystr :=
  match chunks with
  | [] => inr translated_chunks
  | chunk :: rest =>
      match get_token_count_none (Some tok) chunk with
      | inl e => inl e
      | inr _ =>
          match translate_chunk m tok chunk None target_lang with
          | inr translated_chunk =>
              translate_loop_none m tok target_lang (S i) rest
                (translated_chunks ++ [translated_chunk])
          | inl _ =>
              translate_loop_none m tok target_lang (S i) rest
                (translated_chunks ++ [error_placeholder i])
          end
      end
  end.

Section Handler.

(** [str(e)] of the [ValidationError] that [TranslationResponse(...)]
    raises for [source_lang=None], its field being a [str].  The text is
    pydantic's and changes with its version: it is a parameter. *)
Variable response_error : pystr.

(** The [except] clauses of the handler. *)
Definition handled (e : exn) : http :=
  match e with
  | KeyError msg => HTTPException 400 (detail_invalid_language msg)
  | Exception msg => HTTPException 500 (detail_failed msg)
  end.

(** The body of the [try] for [source_lang = None].  Whatever was
    translated, building the response raises; [AttributeError] and
    [ValidationError] fall under [except Exception]. *)
Definition translate_none (m : Model) (tok : Tokenizer) (fuel : nat)
    (text target_lang : pystr) : option http :=
  match get_token_count_none (Some tok) text with
  | inl e => Some (handled e)
  | inr token_count =>
      if gt_int token_count handler_safe_max_tokens then
        match split_text_into_chunks_none (Some tok) handler_safe_max_tokens
                fuel text with
        | None => None
        | Some (inl e) => Some (handled e)
        | Some (inr chunks) =>
            match translate_loop_none m tok target_lang 0 chunks [] with
            | inl e => Some (handled e)
            | inr _ => Some (handled (Exception response_error))
            end
        end
      else
        match translate_chunk m tok text None target_lang with
        | inr _ => Some (handled (Exception response_error))
        | inl e => Some (handled e)
        end
  end.

(** The body of the handler's [try] once the globals are known to be
    loaded.  [fuel] is handed to the chunker, and [None] is its [None]. *)
Definition translate_loaded (m : Model) (tok : Tokenizer) (fuel : nat)
    (request : TranslationRequest.t) : option http :=
  let text := TranslationRequest.text request in
  let target_lang := TranslationRequest.target_lang request in
  match TranslationRequest.source_lang request with
  | None => translate_none m tok fuel text target_lang
  | Some source_lang =>
      let token_count := get_token_count (Some tok) text source_lang in
      let safe_max_tokens := handler_safe_max_tokens in
      if gt_int token_count safe_max_tokens then
        match split_text_into_chunks (Some tok) source_lang safe_max_tokens
                fuel text with
        | None => None
        | Some chunks =>
            let translated_chunks :=
              translate_chunks m tok (Some source_lang) target_lang chunks in
            Some (Response (TranslationResponse.mk
                              (reassemble translated_chunks text)
                              source_lang target_lang))
        end
      else
        match translate_chunk m tok text (Some source_lang) target_lang with
        | inr translated_text =>
            Some (Response (TranslationResponse.mk
                              translated_text source_lang target_lang))
        | inl (KeyError e) =>
            Some (HTTPException 400 (detail_invalid_language e))
        | inl (Exception e) =>
            Some (HTTPException 500 (detail_failed e))
        end
  end.

Definition translate (g : Globals) (fuel : nat)
    (request : TranslationRequest.t) : option http :=
  match model g, tokenizer g with
  | Some m, Some tok =>
      if text_too_long request then
        Some (HTTPException 400 detail_too_long)
      else if negb (Py.truthy (Py.strip (TranslationRequest.text request))) then
        Some (HTTPException 400 detail_empty)
      else translate_loaded m tok fuel request
  | _, _ => Some (HTTPException 503 detail_not_loaded)
  end.

End Handler.

(** [TranslationRequest]'s field constraint
    [Field(..., min_length=1, max_length=MAX_TEXT_LENGTH)]. *)
Definition field_valid (request : TranslationRequest.t) : bool :=
  (1 <=? Py.len (TranslationRequest.text request))
  && (Py.len (TranslationRequest.text request) <=? MAX_TEXT_LENGTH).

(** ** Vocabulary of the properties *)

(** The non-whitespace content of a text. *)
Definition non_whitespace (s : pystr) : pystr :=
  filter (fun c => negb (Py.isspace c)) s.

(** [pieces] put together again, the first [k] gaps filled with [new] and
    the others with [old]. *)
Fixpoint restore (old new : pystr) (k : nat) (pieces : list pystr) : pystr :=
  match pieces with
  | [] => []
  | [p] => p
  | p :: rest =>
      match k with
      | O => p ++ old ++ restore old new 0 rest
      | S k' => p ++ new ++ restore old new k' rest
      end
  end.

(** ** Collaborators used in the examples *)

(** A character-level tokenizer: one token per character. *)
Definition one_per_char : Tokenizer :=
  mkTokenizer (fun _ text => Some (map Z.of_N text)).

(** A tokenizer that spends two tokens on every character, as byte-level
    vocabularies do on two-byte characters. *)
Definition two_per_char : Tokenizer :=
  mkTokenizer (fun _ text => Some (flat_map (fun c => [Z.of_N c; Z.of_N c]) text)).

(** [n] times the letter a. *)
Definition letters (n : Z) : pystr := repeat 97%N (Z.to_nat n).

(** A sentence of a hundred characters, and [n] of them with a blank
    between them. *)
Definition sentence : pystr := letters 99 ++ Py.lit ".".
Definition sentences (n : nat) : pystr := Py.join (Py.lit " ") (repeat sentence n).

(** A text for the error pydantic reports. *)
Definition sample_response_error : pystr :=
  Py.lit "1 validation error for TranslationResponse".

(** A model that fails on one chunk text and echoes every other one. *)
Definition failing_on (bad : pystr) : Model :=
  mkModel (fun _ chunk _ _ =>
             if Py.eqb chunk bad then inl (Exception (Py.lit "out of memory"))
             else inr chunk).

(** ** health_check *)

(** The dictionary of a healthy answer. *)
Record Health : Type := mkHealth {
  status : pystr;
  model_loaded : bool;
  tokenizer_loaded : bool
}.

Inductive health_outcome : Type :=
| HealthOk (h : Health)
| HealthException (status_code : Z) (detail : pystr).

(** [x is None] *)
Definition is_none {A : Type} (x : option A) : bool :=
  match x with None => true | Some _ => false end.

Definition health_check (g : Globals) : health_outcome :=
  if is_none (model g) || is_none (tokenizer g)
  then HealthException 503 (Py.lit "Model not loaded")
  else HealthOk (mkHealth (Py.lit "healthy")
                   (negb (is_none (model g)))
                   (negb (is_none (tokenizer g)))).

(** ** Further vocabulary *)

(** A string that does not start with whitespace. *)
Definition no_lead (s : pystr) : Prop :=
  match s with
  | [] => True
  | c :: _ => Py.isspace c = false
  end.

(** A string that [strip] leaves alone. *)
Definition trimmed (s : pystr) : Prop := Py.strip s = s.

(** [a] is obtained from [b] by deleting characters. *)
Inductive subseq : pystr -> pystr -> Prop :=
| subseq_nil : subseq [] []
| subseq_skip (c : N) (a b : pystr) : subseq a b -> subseq a (c :: b)
| subseq_keep (c : N) (a b : pystr) : subseq a b -> subseq (c :: a) (c :: b).

(** The candidate the sentence scan tests at index [i] of [search_text]:
    a sentence ending that is last in the window or followed by
    whitespace. *)
Definition sentence_end_at (search_text : pystr) (i : Z) : bool :=
  Py.char_in (Py.item search_text i) sentence_endings
  && ((i =? Py.len search_text - 1)
      || ((i + 1 <? Py.len search_text)
          && Py.isspace (Py.item search_text (i + 1)))).

(** * Facts about the Python built-ins *)

Module PyFacts.

Lemma lstrip_length (s : pystr) : (length (Py.lstrip s) <= length s)%nat.
Proof.
  induction s as [|c t IH]; simpl; [lia|].
  destruct (Py.isspace c); simpl; lia.
Qed.

Lemma strip_length (s : pystr) : (length (Py.strip s) <= length s)%nat.
Proof.
  unfold Py.strip, Py.rstrip.
  pose proof (lstrip_length (rev (Py.lstrip (rev s)))) as H1.
  pose proof (lstrip_length (rev s)) as H2.
  rewrite !length_rev in *. lia.
Qed.

Lemma clamp_le (n k : Z) : 0 <= n -> (Py.clamp n k <= Z.to_nat n)%nat.
Proof. unfold Py.clamp. destruct (k <? 0) eqn:E; lia. Qed.

Lemma clamp_pos (n k : Z) : 1 <= n -> 1 <= k -> (1 <= Py.clamp n k)%nat.
Proof. unfold Py.clamp. destruct (k <? 0) eqn:E; lia. Qed.

Lemma clamp_nonneg (n k : Z) : 0 <= k -> Py.clamp n k = Z.to_nat (Z.min k n).
Proof. unfold Py.clamp. destruct (k <? 0) eqn:E; lia. Qed.

Lemma len_nonneg (s : pystr) : 0 <= Py.len s.
Proof. unfold Py.len. lia. Qed.

(** [s[:k] + s[k:] == s] for every [k]. *)
Lemma upto_from (s : pystr) (k : Z) : Py.upto s k ++ Py.from s k = s.
Proof. apply firstn_skipn. Qed.

Lemma upto_length (s : pystr) (k : Z) :
  0 <= k -> Z.of_nat (length (Py.upto s k)) <= k.
Proof.
  intros Hk. unfold Py.upto. rewrite length_firstn, clamp_nonneg by assumption.
  unfold Py.len. lia.
Qed.

Lemma from_length (s : pystr) (k : Z) :
  length (Py.from s k) = (length s - Py.clamp (Py.len s) k)%nat.
Proof. unfold Py.from. apply length_skipn. Qed.

(** A cut at a positive index leaves strictly less than a non-empty
    string, also after trimming. *)
Lemma strip_from_shorter (s : pystr) (k : Z) :
  s <> [] -> 1 <= k -> (length (Py.strip (Py.from s k)) < length s)%nat.
Proof.
  intros Hs Hk.
  pose proof (strip_length (Py.from s k)) as H1.
  rewrite from_length in H1.
  assert (0 < length s)%nat by (destruct s; [congruence | simpl; lia]).
  pose proof (clamp_pos (Py.len s) k) as H2. unfold Py.len in *. lia.
Qed.

(** Slicing a string from an index that is at least its length. *)
Lemma from_beyond (s : pystr) (k : Z) :
  Z.of_nat (length s) <= k -> Py.from s k = [].
Proof.
  intros H. unfold Py.from. apply skipn_all2.
  rewrite clamp_nonneg by lia. unfold Py.len. lia.
Qed.

Lemma truthy_nonempty (s : pystr) : Py.truthy s = true <-> s <> [].
Proof. destruct s; simpl; split; congruence. Qed.

Lemma non_whitespace_app (a b : pystr) :
  non_whitespace (a ++ b) = non_whitespace a ++ non_whitespace b.
Proof. apply filter_app. Qed.

Lemma non_whitespace_lstrip (s : pystr) :
  non_whitespace (Py.lstrip s) = non_whitespace s.
Proof.
  induction s as [|c t IH]; [reflexivity|].
  simpl. destruct (Py.isspace c) eqn:E; simpl; [exact IH | rewrite E; reflexivity].
Qed.

Lemma non_whitespace_rev (s : pystr) :
  non_whitespace (rev s) = rev (non_whitespace s).
Proof.
  induction s as [|c t IH]; [reflexivity|].
  simpl. rewrite non_whitespace_app, IH. simpl.
  destruct (Py.isspace c); simpl; [apply app_nil_r | reflexivity].
Qed.

(** Trimming removes whitespace only. *)
Lemma non_whitespace_strip (s : pystr) :
  non_whitespace (Py.strip s) = non_whitespace s.
Proof.
  unfold Py.strip, Py.rstrip.
  rewrite non_whitespace_lstrip, non_whitespace_rev, non_whitespace_lstrip,
    non_whitespace_rev.
  apply rev_involutive.
Qed.

(** Cutting at any index and trimming both sides keeps the content. *)
Lemma non_whitespace_cut (s : pystr) (k : Z) :
  non_whitespace (Py.strip (Py.upto s k))
  ++ non_whitespace (Py.strip (Py.from s k)) = non_whitespace s.
Proof.
  rewrite !non_whitespace_strip, <- non_whitespace_app, upto_from. reflexivity.
Qed.

End PyFacts.

(** * The chunking loop *)

Section ChunkerFacts.

Variable tokenizer : option Tokenizer.
Variable source_lang : pystr.
Variable max_tokens : Z.

#[local] Abbreviation safe := (safe_max_tokens max_tokens).
#[local] Abbreviation bsearch' := (bsearch tokenizer source_lang max_tokens).
#[local] Abbreviation binary_search' := (binary_search tokenizer source_lang max_tokens).
#[local] Abbreviation fits' := (fits tokenizer source_lang max_tokens).
#[local] Abbreviation cut' := (cut tokenizer source_lang max_tokens).
#[local] Abbreviation verify' := (verify tokenizer source_lang max_tokens).
#[local] Abbreviation iteration' := (iteration tokenizer source_lang max_tokens).
#[local] Abbreviation split_loop' := (split_loop tokenizer source_lang max_tokens).
#[local] Abbreviation kept' := (kept tokenizer source_lang max_tokens).
#[local] Abbreviation can_cut' := (can_cut tokenizer source_lang max_tokens).

(** *** The binary search *)

Lemma bsearch_kept (s : pystr) (fuel : nat) :
  forall low high c b,
    1 <= low -> kept' s c b ->
    kept' s (fst (bsearch' s fuel low high c b)) (snd (bsearch' s fuel low high c b)).
Proof.
  induction fuel as [|f IH]; intros low high c b Hlow Hk; simpl; [exact Hk|].
  destruct (low <=? high) eqn:Hlh; [|exact Hk].
  apply Z.leb_le in Hlh.
  assert (Hmid : low <= (low + high) / 2)
    by (apply Z.div_le_lower_bound; lia).
  destruct (fits' (Py.upto s ((low + high) / 2))) eqn:Hf.
  - apply IH; [lia|]. right. repeat split; [lia | exact Hf].
  - apply IH; [lia | exact Hk].
Qed.

Lemma binary_search_kept (s : pystr) :
  kept' s (fst (binary_search' s)) (snd (binary_search' s)).
Proof.
  unfold binary_search. apply bsearch_kept; [lia|]. left. split; reflexivity.
Qed.

(** The candidate is never longer than [best_break]. *)
Lemma binary_search_length (s : pystr) (c : pystr) (b : Z) :
  binary_search' s = (c, b) -> 0 <= b /\ Z.of_nat (length c) <= b.
Proof.
  intros E. pose proof (binary_search_kept s) as H. rewrite E in H. simpl in H.
  destruct H as [[-> ->] | (Hb & -> & _)]; simpl; [lia|].
  split; [lia|]. apply PyFacts.upto_length. lia.
Qed.

(** The loop leaves with [low > high] before [fuel] runs out, so a larger
    [fuel] changes nothing. *)
Lemma bsearch_fuel (s : pystr) (fuel : nat) :
  forall extra low high c b,
    high - low + 1 <= Z.of_nat fuel ->
    bsearch' s (fuel + extra) low high c b = bsearch' s fuel low high c b.
Proof.
  induction fuel as [|f IH]; intros extra low high c b Hf.
  - destruct extra; simpl; [reflexivity|].
    destruct (low <=? high) eqn:E; [apply Z.leb_le in E; lia | reflexivity].
  - simpl. destruct (low <=? high) eqn:E; [|reflexivity].
    apply Z.leb_le in E.
    assert (low <= (low + high) / 2) by (apply Z.div_le_lower_bound; lia).
    assert ((low + high) / 2 <= high) by (apply Z.div_le_upper_bound; lia).
    destruct (fits' _); apply IH; lia.
Qed.

(** *** The re-measurement never gives anything back *)

Lemma verify_remaining (chunk_text remaining : pystr) :
  snd (verify' chunk_text remaining) = remaining.
Proof.
  unfold verify.
  destruct (gt_int _ _); [|reflexivity].
  destruct (binary_search' chunk_text) as [safe_chunk safe_length] eqn:E.
  apply binary_search_length in E. destruct E as [Hb Hl].
  destruct (Py.truthy safe_chunk); cbn [snd].
  - rewrite PyFacts.from_beyond; [reflexivity|].
    pose proof (PyFacts.strip_length safe_chunk). lia.
  - rewrite PyFacts.from_beyond; [reflexivity|].
    set (r := 4 * Py.len chunk_text / 5).
    assert (0 <= r).
    { apply Z.div_pos; [|lia]. pose proof (PyFacts.len_nonneg chunk_text). lia. }
    pose proof (PyFacts.strip_length (Py.upto chunk_text r)).
    pose proof (PyFacts.upto_length chunk_text r ltac:(assumption)). lia.
Qed.

(** *** Every pass shortens [remaining] *)

Lemma scan_fallback_above (remaining : pystr) (lo : Z) (k : nat) (i : Z) :
  scan_fallback remaining lo k = Some i -> lo < i.
Proof.
  induction k as [|k IH]; [discriminate|].
  cbn [scan_fallback].
  destruct (_ && _); [|exact IH].
  intros [= <-]. lia.
Qed.

Lemma cut_fitting_shrinks (remaining chunk_text : pystr) (best_break : Z) :
  remaining <> [] -> 1 <= best_break ->
  (length (snd (cut_fitting source_lang remaining chunk_text best_break))
   < length remaining)%nat.
Proof.
  intros Hr Hb. unfold cut_fitting.
  set (search_start := Z.max 0 (best_break - best_break / 5)).
  assert (0 <= search_start) by lia.
  destruct (search_start <? _) eqn:E1.
  { apply Z.ltb_lt in E1. simpl. apply PyFacts.strip_from_shorter; [assumption | lia]. }
  destruct (negb _).
  - destruct (4 * search_start <? _) eqn:E2; simpl;
      apply PyFacts.strip_from_shorter; try assumption.
    apply Z.ltb_lt in E2. lia.
  - simpl. apply PyFacts.strip_from_shorter; assumption.
Qed.

Lemma cut_fallback_shrinks (remaining : pystr) :
  remaining <> [] -> 1 <= safe ->
  (length (snd (cut_fallback source_lang max_tokens remaining))
   < length remaining)%nat.
Proof.
  intros Hr Hs. unfold cut_fallback.
  set (fallback_length := Z.min (Py.len remaining) (safe * 2)).
  assert (1 <= fallback_length).
  { unfold fallback_length, Py.len.
    destruct remaining; [congruence | simpl length; lia]. }
  set (lo := Z.max 0 (fallback_length - 500)).
  destruct (scan_fallback _ _ _) as [i|] eqn:E.
  { apply scan_fallback_above in E. simpl.
    apply PyFacts.strip_from_shorter; [assumption | lia]. }
  destruct (negb _).
  - destruct (0 <? _) eqn:E2; simpl;
      apply PyFacts.strip_from_shorter; try assumption.
    apply Z.ltb_lt in E2. lia.
  - simpl. apply PyFacts.strip_from_shorter; assumption.
Qed.

(** Once a prefix has been accepted, the search returns an accepted one. *)
Lemma bsearch_keeps_found (s : pystr) (fuel : nat) :
  forall low high c b,
    1 <= low -> 1 <= b -> 1 <= snd (bsearch' s fuel low high c b).
Proof.
  induction fuel as [|f IH]; intros low high c b Hlow Hb; simpl; [exact Hb|].
  destruct (low <=? high) eqn:Hlh; [|exact Hb].
  apply Z.leb_le in Hlh.
  assert (low <= (low + high) / 2) by (apply Z.div_le_lower_bound; lia).
  destruct (fits' _); apply IH; lia.
Qed.

(** With [low = 1] every rejected probe moves [high] down, and the last
    probe is the prefix of length one: the search cannot miss it. *)
Lemma bsearch_finds (s : pystr) :
  fits' (Py.upto s 1) = true ->
  forall fuel high c b,
    1 <= high <= Z.of_nat fuel -> 1 <= snd (bsearch' s fuel 1 high c b).
Proof.
  intros H1. induction fuel as [|f IH]; intros high c b Hh; [lia|].
  cbn [bsearch]. destruct (1 <=? high) eqn:E; [|apply Z.leb_gt in E; lia].
  assert (Hlo : 1 <= (1 + high) / 2) by (apply Z.div_le_lower_bound; lia).
  assert (Hhi : (1 + high) / 2 <= high) by (apply Z.div_le_upper_bound; lia).
  destruct (fits' (Py.upto s ((1 + high) / 2))) eqn:Hf.
  - apply bsearch_keeps_found; lia.
  - assert ((1 + high) / 2 <> 1) by (intros Heq; rewrite Heq in Hf; congruence).
    apply IH. lia.
Qed.

Lemma upto_nonempty (s : pystr) (k : Z) :
  s <> [] -> 1 <= k -> Py.upto s k <> [].
Proof.
  intros Hs Hk. destruct s as [|c t]; [congruence|].
  unfold Py.upto.
  pose proof (PyFacts.clamp_pos (Py.len (c :: t)) k) as H.
  unfold Py.len in H. simpl length in H.
  destruct (Py.clamp _ k); [lia | simpl; discriminate].
Qed.

Lemma upto_one (c : N) (t : pystr) : Py.upto (c :: t) 1 = [c].
Proof.
  unfold Py.upto, Py.clamp, Py.len. simpl length.
  replace (Z.to_nat _) with 1%nat; [reflexivity|].
  destruct (1 <? 0) eqn:E; lia.
Qed.

Lemma binary_search_finds (s : pystr) :
  s <> [] -> fits' (Py.upto s 1) = true ->
  1 <= snd (binary_search' s)
  /\ fst (binary_search' s) = Py.upto s (snd (binary_search' s))
  /\ fits' (fst (binary_search' s)) = true
  /\ Py.truthy (fst (binary_search' s)) = true.
Proof.
  intros Hs H1.
  assert (Hb : 1 <= snd (binary_search' s)).
  { unfold binary_search. apply bsearch_finds; [assumption|].
    unfold Py.len. destruct s; [congruence | simpl length; lia]. }
  destruct (binary_search_kept s) as [[_ H0] | (_ & Hc & Hf)]; [lia|].
  repeat split; try assumption.
  apply PyFacts.truthy_nonempty. rewrite Hc. apply upto_nonempty; assumption.
Qed.

Lemma cut_shrinks (remaining : pystr) :
  remaining <> [] -> can_cut' remaining ->
  (length (snd (cut' remaining)) < length remaining)%nat.
Proof.
  intros Hr Hc. unfold cut.
  destruct (binary_search' remaining) as [chunk_text best_break] eqn:Eb.
  destruct (Py.truthy chunk_text && (0 <? best_break)) eqn:E.
  - apply andb_true_iff in E. destruct E as [_ E]. apply Z.ltb_lt in E.
    apply cut_fitting_shrinks; [assumption | lia].
  - destruct Hc as [Hs | H1]; [apply cut_fallback_shrinks; assumption|].
    destruct (binary_search_finds remaining Hr H1) as (Hb & _ & _ & Ht).
    rewrite Eb in Hb, Ht. cbn [fst snd] in Hb, Ht.
    assert (Hb' : (0 <? best_break) = true) by (apply Z.ltb_lt; lia).
    rewrite Ht, Hb' in E. discriminate.
Qed.

Lemma iteration_shrinks (remaining : pystr) (chunks : list pystr) :
  remaining <> [] -> can_cut' remaining ->
  (length (fst (iteration' remaining chunks)) < length remaining)%nat.
Proof.
  intros Hr Hs. unfold iteration.
  pose proof (cut_shrinks remaining Hr Hs) as H.
  destruct (cut' remaining) as [chunk_text remaining1]. simpl in H.
  destruct (Py.truthy chunk_text); [|exact H].
  pose proof (verify_remaining chunk_text remaining1) as Hv.
  destruct (verify' chunk_text remaining1) as [c r]. simpl in *. subst r.
  exact H.
Qed.

Lemma split_loop_terminates (fuel : nat) :
  (forall remaining, remaining <> [] -> can_cut' remaining) ->
  forall remaining chunks,
    (length remaining <= fuel)%nat ->
    exists result, split_loop' fuel remaining chunks = Some result.
Proof.
  intros Hs. induction fuel as [|f IH]; intros remaining chunks Hlen.
  - destruct remaining; [eexists; reflexivity | simpl in Hlen; lia].
  - destruct remaining as [|c t]; [eexists; reflexivity|].
    cbn [split_loop].
    pose proof (iteration_shrinks (c :: t) chunks ltac:(discriminate)
                  (Hs (c :: t) ltac:(discriminate))) as H.
    destruct (iteration' (c :: t) chunks) as [r cs]. cbn [fst length] in H, Hlen.
    apply IH. lia.
Qed.

Lemma binary_search_fuel (s : pystr) (extra : nat) :
  bsearch' s (length s + extra) 1 (Py.len s) [] 0 = binary_search' s.
Proof. apply bsearch_fuel. unfold Py.len. lia. Qed.

(** A result does not depend on the fuel that was left over. *)
Lemma split_loop_fuel (fuel : nat) :
  forall extra remaining chunks result,
    split_loop' fuel remaining chunks = Some result ->
    split_loop' (fuel + extra) remaining chunks = Some result.
Proof.
  induction fuel as [|f IH]; intros extra remaining chunks result H.
  - destruct remaining; [|discriminate].
    destruct extra; exact H.
  - destruct remaining as [|c t]; [exact H|].
    cbn [split_loop Nat.add] in *.
    destruct (iteration' (c :: t) chunks) as [r cs]. apply IH. exact H.
Qed.

(** The loop only ever appends to [chunks]. *)
Lemma split_loop_bound (fuel : nat) :
  (forall remaining, remaining <> [] -> can_cut' remaining) ->
  forall remaining chunks result,
    split_loop' fuel remaining chunks = Some result ->
    (length result <= length chunks + length remaining)%nat.
Proof.
  intros Hs. induction fuel as [|f IH]; intros remaining chunks result H.
  - destruct remaining; [|discriminate]. injection H as <-. lia.
  - destruct remaining as [|c t]; [injection H as <-; lia|].
    cbn [split_loop] in H.
    pose proof (iteration_shrinks (c :: t) chunks ltac:(discriminate)
                  (Hs (c :: t) ltac:(discriminate))) as Hlt.
    assert (Hc : (length (snd (iteration' (c :: t) chunks))
                  <= S (length chunks))%nat).
    { unfold iteration. destruct (cut' (c :: t)) as [x y].
      destruct (Py.truthy x); [|simpl; lia].
      destruct (verify' x y). cbn [snd]. rewrite length_app. simpl. lia. }
    destruct (iteration' (c :: t) chunks) as [r cs]. cbn [fst snd] in *.
    apply IH in H. lia.
Qed.

(** *** The cut itself loses nothing *)

Lemma cut_fitting_covers (remaining : pystr) (best_break : Z) :
  let r := cut_fitting source_lang remaining
             (Py.upto remaining best_break) best_break in
  non_whitespace (fst r) ++ non_whitespace (snd r) = non_whitespace remaining.
Proof.
  unfold cut_fitting.
  destruct (_ <? _); cbn [fst snd]; [apply PyFacts.non_whitespace_cut|].
  destruct (negb _); [destruct (_ <? _)|]; cbn [fst snd];
    apply PyFacts.non_whitespace_cut.
Qed.

Lemma cut_fallback_covers (remaining : pystr) :
  let r := cut_fallback source_lang max_tokens remaining in
  non_whitespace (fst r) ++ non_whitespace (snd r) = non_whitespace remaining.
Proof.
  unfold cut_fallback.
  destruct (scan_fallback _ _ _); cbn [fst snd];
    [apply PyFacts.non_whitespace_cut|].
  destruct (negb _); [destruct (_ <? _)|]; cbn [fst snd];
    apply PyFacts.non_whitespace_cut.
Qed.

(** Lines 197-281 split [remaining] into a chunk and a rest that hold the
    same non-whitespace characters, in the same order. *)
Lemma cut_covers (remaining : pystr) :
  non_whitespace (fst (cut' remaining)) ++ non_whitespace (snd (cut' remaining))
  = non_whitespace remaining.
Proof.
  unfold cut.
  pose proof (binary_search_kept remaining) as Hk.
  destruct (binary_search' remaining) as [chunk_text best_break].
  cbn [fst snd] in Hk.
  destruct (Py.truthy chunk_text && (0 <? best_break)) eqn:E.
  - destruct Hk as [[-> _] | (_ & -> & _)]; [discriminate E|].
    apply cut_fitting_covers.
  - apply cut_fallback_covers.
Qed.

(** A pass whose chunk needs no reduction appends that chunk and keeps
    the rest: nothing is lost in it. *)
Lemma iteration_covers (remaining : pystr) (chunks : list pystr) :
  fits' (fst (cut' remaining)) = true ->
  non_whitespace (concat (snd (iteration' remaining chunks)))
  ++ non_whitespace (fst (iteration' remaining chunks))
  = non_whitespace (concat chunks) ++ non_whitespace remaining.
Proof.
  intros Hf. unfold iteration.
  pose proof (cut_covers remaining) as Hc.
  destruct (cut' remaining) as [chunk_text remaining1]. cbn [fst snd] in *.
  destruct (Py.truthy chunk_text) eqn:Et.
  - unfold verify. unfold fits, le_int in Hf. unfold gt_int.
    apply Z.leb_le in Hf.
    destruct (_ <? _) eqn:Eg; [apply Z.ltb_lt in Eg; lia|].
    cbn [fst snd]. rewrite concat_app. cbn [concat].
    rewrite app_nil_r, PyFacts.non_whitespace_app, <- app_assoc, Hc.
    reflexivity.
  - destruct chunk_text; [|discriminate]. cbn [fst snd].
    rewrite <- Hc. reflexivity.
Qed.

(** *** Chunks within the budget *)

Section Budget.

(** A single character always fits, and trimming never adds tokens. *)
Hypothesis one_char_fits : forall c : N, fits' [c] = true.
Hypothesis strip_no_more :
  forall s : pystr,
    value (get_token_count tokenizer (Py.strip s) source_lang)
    <= value (get_token_count tokenizer s source_lang).

Lemma first_char_fits (s : pystr) : s <> [] -> fits' (Py.upto s 1) = true.
Proof.
  intros Hs. destruct s as [|c t]; [congruence|].
  rewrite upto_one. apply one_char_fits.
Qed.

Lemma strip_fits (s : pystr) : fits' s = true -> fits' (Py.strip s) = true.
Proof.
  unfold fits, le_int. rewrite !Z.leb_le.
  pose proof (strip_no_more s). lia.
Qed.

Lemma verify_fits (chunk_text remaining : pystr) :
  chunk_text <> [] -> fits' (fst (verify' chunk_text remaining)) = true.
Proof.
  intros Hc. unfold verify.
  destruct (gt_int _ _) eqn:Eg.
  - destruct (binary_search_finds chunk_text Hc (first_char_fits _ Hc))
      as (_ & _ & Hf & Ht).
    destruct (binary_search' chunk_text) as [safe_chunk safe_length].
    cbn [fst] in Hf, Ht. rewrite Ht. cbn [fst].
    apply strip_fits. exact Hf.
  - cbn [fst]. unfold fits, le_int. unfold gt_int in Eg.
    apply Z.leb_le. apply Z.ltb_ge in Eg. exact Eg.
Qed.

Lemma split_loop_fits (fuel : nat) :
  forall remaining chunks result,
    Forall (fun chunk => fits' chunk = true) chunks ->
    split_loop' fuel remaining chunks = Some result ->
    Forall (fun chunk => fits' chunk = true) result.
Proof.
  induction fuel as [|f IH]; intros remaining chunks result Hall H.
  - destruct remaining; [|discriminate]. injection H as <-. exact Hall.
  - destruct remaining as [|c t]; [injection H as <-; exact Hall|].
    cbn [split_loop] in H.
    assert (Hi : Forall (fun chunk => fits' chunk = true)
                   (snd (iteration' (c :: t) chunks))).
    { unfold iteration. destruct (cut' (c :: t)) as [x y].
      destruct (Py.truthy x) eqn:Et; [|exact Hall].
      pose proof (verify_fits x y (proj1 (PyFacts.truthy_nonempty x) Et)) as Hv.
      destruct (verify' x y) as [x' y']. cbn [fst snd] in *.
      apply Forall_app. split; [exact Hall|]. constructor; [exact Hv | constructor]. }
    destruct (iteration' (c :: t) chunks) as [r cs]. cbn [snd] in Hi.
    exact (IH _ _ _ Hi H).
Qed.

End Budget.

End ChunkerFacts.

(** * The claims *)

(** ** Progress and termination *)

(** C3.  With a positive safe budget ([max_tokens - 50 >= 1]) every pass
    through the body of [while remaining] leaves a strictly shorter
    [remaining], whatever the tokenizer answers and whether or not the text
    has sentence or word boundaries; hence [split_text_into_chunks] returns
    for every non-empty text, after at most [len(text)] passes and with at
    most [len(text)] chunks. *)
Theorem chunking_terminates (tokenizer : option Tokenizer)
    (source_lang : pystr) (max_tokens : Z) (text : pystr) :
  text <> [] ->
  1 <= safe_max_tokens max_tokens ->
  (forall remaining chunks,
      remaining <> [] ->
      (length (fst (iteration tokenizer source_lang max_tokens remaining chunks))
       < length remaining)%nat)
  /\ exists chunks,
       (length chunks <= length text)%nat
       /\ forall fuel,
           (length text <= fuel)%nat ->
           split_text_into_chunks tokenizer source_lang max_tokens fuel text
           = Some chunks.
Proof.
  intros Htext Hsafe. split.
  - intros remaining chunks Hr. apply iteration_shrinks; [exact Hr | left; exact Hsafe].
  - assert (Hcut : forall remaining : pystr, remaining <> [] ->
                     can_cut tokenizer source_lang max_tokens remaining)
      by (intros; left; exact Hsafe).
    pose proof (PyFacts.strip_length text) as Hstrip.
    unfold split_text_into_chunks.
    destruct (le_int _ _).
    + exists [text]. split; [|reflexivity].
      destruct text; [congruence | simpl; lia].
    + destruct (split_loop_terminates tokenizer source_lang max_tokens
                  (length (Py.strip text)) Hcut (Py.strip text) [] (le_n _))
        as [result Hres].
      exists result. split.
      * pose proof (split_loop_bound _ _ _ _ Hcut _ _ _ Hres) as Hb.
        simpl in Hb. lia.
      * intros fuel Hfuel.
        replace fuel with (length (Py.strip text)
                           + (fuel - length (Py.strip text)))%nat by lia.
        apply split_loop_fuel. exact Hres.
Qed.

Lemma chunking_terminates_witness :
  exists chunks,
    split_text_into_chunks (Some two_per_char) (Py.lit "eng_Latn") 51 4
      (Py.lit "abcd") = Some chunks.
Proof.
  destruct (chunking_terminates (Some two_per_char) (Py.lit "eng_Latn") 51
              (Py.lit "abcd")) as [_ [chunks [_ H]]].
  - discriminate.
  - unfold safe_max_tokens. lia.
  - exists chunks. apply H. simpl. lia.
Defined.

(** ** Coverage *)

(** C1, on the code.  The re-measurement never hands anything back:
    whatever it cuts off a chunk, [remaining] stays as the cut left it,
    because [remaining = chunk_text[safe_length:] + remaining] (and the
    same with [reduced_length]) slices [chunk_text] after it was rebound to
    the shortened chunk.  At a concrete input: the tokenizer spends two
    tokens per character and [max_tokens = 51] leaves a budget of one token.
    On ["abcd"] no prefix fits, the fallback cuts ["ab"], the inner search
    finds nothing and the last resort keeps ["a"]; ["b"] is never put back.
    The same happens to ["d"]: the chunks are ["a"] and ["c"], and their
    non-whitespace content is not that of the text. *)
Theorem reduction_drops_text :
  (forall tokenizer source_lang max_tokens chunk_text remaining,
      snd (verify tokenizer source_lang max_tokens chunk_text remaining)
      = remaining)
  /\ verify (Some two_per_char) (Py.lit "eng_Latn") 51 (Py.lit "ab") (Py.lit "cd")
     = (Py.lit "a", Py.lit "cd")
  /\ split_text_into_chunks (Some two_per_char) (Py.lit "eng_Latn") 51 4
       (Py.lit "abcd") = Some [Py.lit "a"; Py.lit "c"]
  /\ non_whitespace (concat [Py.lit "a"; Py.lit "c"])
     <> non_whitespace (Py.lit "abcd").
Proof.
  split; [exact verify_remaining|].
  repeat split; vm_compute; (reflexivity || discriminate).
Qed.

(** ** Budget *)




(** ** The reserve *)

(** C4, on the code.  The handler compares the whole text against
    [MAX_INPUT_TOKENS - 50 = 974] and passes that number as [max_tokens];
    [split_text_into_chunks] subtracts 50 from its [max_tokens] again and
    cuts against 924.  With one token per character, a 975-character text
    is sent to the chunker, whose first chunk has 924 characters although
    974 would pass the handler's test. *)
Theorem reserve_subtracted_twice :
  handler_safe_max_tokens = MAX_INPUT_TOKENS - 50
  /\ safe_max_tokens handler_safe_max_tokens = MAX_INPUT_TOKENS - 50 - 50
  /\ gt_int (get_token_count (Some one_per_char) (letters 975)
               (Py.lit "eng_Latn")) handler_safe_max_tokens = true
  /\ split_text_into_chunks (Some one_per_char) (Py.lit "eng_Latn")
       handler_safe_max_tokens 975 (letters 975)
     = Some [letters 924; letters 51].
Proof. repeat split; vm_compute; reflexivity. Qed.

(** ** The token oracle *)

Lemma fallback_count_value (text source_lang : pystr) :
  0 <= value (fallback_count text source_lang)
  /\ (value (fallback_count text source_lang) = 2 * Py.len text / 5
      \/ value (fallback_count text source_lang) = Py.len text / 4).
Proof.
  unfold fallback_count. pose proof (PyFacts.len_nonneg text).
  destruct (_ || _); cbn [value]; split; try (apply Z.div_pos; lia); auto.
Qed.

(** The count is never negative, with or without a working tokenizer. *)
Lemma get_token_count_nonneg (tokenizer : option Tokenizer)
    (text source_lang : pystr) :
  0 <= value (get_token_count tokenizer text source_lang).
Proof.
  unfold get_token_count.
  destruct tokenizer as [t|]; [destruct (encode t (Some source_lang) text)|];
    try apply fallback_count_value.
  cbn [value]. lia.
Qed.

(** C5, on the code.  When the tokenizer fails and the source language is
    Khmer, the fallback [len(text) // 2.5] of a five-character text is the
    float [2.0], not an int; the same text under a Latin-script language
    gives the int [5 // 4 = 1]. *)
Theorem fallback_returns_float :
  get_token_count None (Py.lit "abcde") (Py.lit "khm_Khmr") = PyFloat 2
  /\ is_int (get_token_count None (Py.lit "abcde") (Py.lit "khm_Khmr")) = false
  /\ get_token_count None (Py.lit "abcde") (Py.lit "eng_Latn") = PyInt 1.
Proof. repeat split; vm_compute; reflexivity. Qed.

(** ** Short texts *)

(** C6 as stated fails: a short text with a leading blank comes back as it
    is, not trimmed. *)
Lemma short_text_not_trimmed :
  value (get_token_count (Some one_per_char) (Py.lit " a") (Py.lit "eng_Latn"))
  <= 1024 - 50
  /\ split_text_into_chunks (Some one_per_char) (Py.lit "eng_Latn") 1024 2
       (Py.lit " a") <> Some [Py.strip (Py.lit " a")].
Proof. split; vm_compute; [discriminate | discriminate]. Qed.

(** C6, amended.  A text whose token count is at most [max_tokens - 50] is
    returned as the only chunk, unchanged, whatever the fuel. *)
Theorem short_text_single_chunk (tokenizer : option Tokenizer)
    (source_lang : pystr) (max_tokens : Z) (fuel : nat) (text : pystr) :
  value (get_token_count tokenizer text source_lang) <= max_tokens - 50 ->
  split_text_into_chunks tokenizer source_lang max_tokens fuel text
  = Some [text].
Proof.
  intros H. unfold split_text_into_chunks, le_int, safe_max_tokens.
  apply Z.leb_le in H. rewrite H. reflexivity.
Qed.

Lemma short_text_single_chunk_witness :
  split_text_into_chunks (Some one_per_char) (Py.lit "eng_Latn") 1024 0
    (Py.lit " Hello world. This is fine. ")
  = Some [Py.lit " Hello world. This is fine. "].
Proof.
  apply (short_text_single_chunk (Some one_per_char) (Py.lit "eng_Latn") 1024 0).
  vm_compute. discriminate.
Defined.

(** ** The per-chunk loop *)

Section OrchestrationFacts.

Variable m : Model.
Variable tok : Tokenizer.
Variable source_lang : option pystr.
Variable target_lang : pystr.

#[local] Abbreviation loop := (translate_loop m tok source_lang target_lang).
#[local] Abbreviation stored' := (stored m tok source_lang target_lang).

Lemma translate_loop_step (i : nat) (chunk : pystr) (rest acc : list pystr) :
  loop i (chunk :: rest) acc = loop (S i) rest (acc ++ [stored' i chunk]).
Proof.
  unfold stored. cbn [translate_loop].
  destruct (translate_chunk m tok chunk source_lang target_lang); reflexivity.
Qed.

Lemma translate_loop_length (chunks : list pystr) :
  forall i acc, length (loop i chunks acc) = (length acc + length chunks)%nat.
Proof.
  induction chunks as [|chunk rest IH]; intros i acc.
  - simpl. lia.
  - rewrite translate_loop_step, IH, length_app. simpl. lia.
Qed.

(** Earlier entries are never touched again. *)
Lemma translate_loop_prefix (chunks : list pystr) :
  forall i acc k,
    (k < length acc)%nat ->
    nth_error (loop i chunks acc) k = nth_error acc k.
Proof.
  induction chunks as [|chunk rest IH]; intros i acc k Hk; [reflexivity|].
  rewrite translate_loop_step, IH by (rewrite length_app; simpl; lia).
  apply nth_error_app1. exact Hk.
Qed.

Lemma translate_loop_nth (chunks : list pystr) :
  forall i acc k chunk,
    nth_error chunks k = Some chunk ->
    nth_error (loop i chunks acc) (length acc + k)
    = Some (stored' (i + k) chunk).
Proof.
  induction chunks as [|c rest IH]; intros i acc k chunk Hk.
  - destruct k; discriminate.
  - rewrite translate_loop_step. destruct k as [|k].
    + injection Hk as ->.
      rewrite translate_loop_prefix by (rewrite length_app; simpl; lia).
      rewrite !Nat.add_0_r, nth_error_app2, Nat.sub_diag by lia. reflexivity.
    + simpl in Hk.
      replace (length acc + S k)%nat with (length (acc ++ [stored' i c]) + k)%nat
        by (rewrite length_app; simpl; lia).
      replace (i + S k)%nat with (S i + k)%nat by lia.
      apply IH. exact Hk.
Qed.

End OrchestrationFacts.

(** With a positive budget the chunker returns once the fuel covers the
    length of the text. *)
Lemma split_returns (tokenizer : option Tokenizer) (source_lang : pystr)
    (max_tokens : Z) (fuel : nat) (text : pystr) :
  1 <= safe_max_tokens max_tokens ->
  (length text <= fuel)%nat ->
  exists chunks,
    split_text_into_chunks tokenizer source_lang max_tokens fuel text
    = Some chunks.
Proof.
  intros Hsafe Hfuel. unfold split_text_into_chunks.
  destruct (le_int _ _); [eexists; reflexivity|].
  apply split_loop_terminates.
  - intros remaining _. left. exact Hsafe.
  - pose proof (PyFacts.strip_length text). lia.
Qed.

(** The chunked path of a request whose [source_lang] is a string always
    answers: the budget the chunker works with is positive, so it returns,
    and nothing after it can raise. *)
Lemma chunked_path_responds (response_error : pystr) (m : Model)
    (tok : Tokenizer) (fuel : nat) (request : TranslationRequest.t)
    (source_lang : pystr) :
  let text := TranslationRequest.text request in
  let target_lang := TranslationRequest.target_lang request in
  TranslationRequest.source_lang request = Some source_lang ->
  gt_int (get_token_count (Some tok) text source_lang) handler_safe_max_tokens
  = true ->
  (length text <= fuel)%nat ->
  exists chunks,
    split_text_into_chunks (Some tok) source_lang handler_safe_max_tokens
      fuel text = Some chunks
    /\ translate_loaded response_error m tok fuel request
       = Some (Response (TranslationResponse.mk
                           (reassemble
                              (translate_chunks m tok (Some source_lang)
                                 target_lang chunks)
                              text)
                           source_lang target_lang)).
Proof.
  intros text target_lang Hlang Hgt Hfuel.
  destruct (split_returns (Some tok) source_lang handler_safe_max_tokens
              fuel text) as [chunks Hc]; [vm_compute; discriminate | exact Hfuel |].
  exists chunks. split; [exact Hc|].
  unfold translate_loaded. fold text target_lang.
  rewrite Hlang, Hgt, Hc. reflexivity.
Qed.




(** ** The handler on a request without source language *)

Section NoSourceLanguageFacts.

Variable tokenizer : option Tokenizer.
Variable max_tokens : Z.

#[local] Abbreviation bsearch_n := (bsearch_none tokenizer max_tokens).
#[local] Abbreviation cut_n := (cut_none tokenizer max_tokens).
#[local] Abbreviation verify_n := (verify_none tokenizer max_tokens).
#[local] Abbreviation iteration_n := (iteration_none tokenizer max_tokens).
#[local] Abbreviation split_loop_n := (split_loop_none tokenizer max_tokens).

(** The candidate of the search is never longer than [best_break]. *)
Lemma bsearch_none_length (s : pystr) (fuel : nat) :
  forall low high c b c' b',
    1 <= low -> 0 <= b -> Z.of_nat (length c) <= b ->
    bsearch_n s fuel low high c b = inr (c', b') ->
    0 <= b' /\ Z.of_nat (length c') <= b'.
Proof.
  induction fuel as [|f IH]; intros low high c b c' b' Hl Hb Hc H;
    cbn [bsearch_none] in H.
  - injection H as <- <-. split; assumption.
  - destruct (low <=? high) eqn:E; [|injection H as <- <-; split; assumption].
    apply Z.leb_le in E.
    assert (low <= (low + high) / 2) by (apply Z.div_le_lower_bound; lia).
    destruct (get_token_count_none tokenizer _) as [e | n]; [discriminate|].
    destruct (le_int n _).
    + eapply IH in H; [exact H | lia | lia | apply PyFacts.upto_length; lia].
    + eapply IH in H; [exact H | exact Hl | exact Hb | exact Hc].
Qed.

(** As with a string, the re-measurement never hands anything back. *)
Lemma verify_none_remaining (chunk_text remaining c r : pystr) :
  verify_n chunk_text remaining = inr (c, r) -> r = remaining.
Proof.
  unfold verify_none.
  destruct (get_token_count_none tokenizer chunk_text) as [e | n];
    [discriminate|].
  destruct (gt_int n _); [|intros [= _ <-]; reflexivity].
  destruct (binary_search_none tokenizer max_tokens chunk_text)
    as [e | [safe_chunk safe_length]] eqn:Eb; [discriminate|].
  unfold binary_search_none in Eb.
  apply bsearch_none_length in Eb; [|lia|lia|simpl; lia].
  destruct Eb as [Hb Hl].
  set (k := 4 * Py.len chunk_text / 5).
  assert (0 <= k).
  { apply Z.div_pos; [|lia]. pose proof (PyFacts.len_nonneg chunk_text). lia. }
  pose proof (PyFacts.strip_length (Py.upto chunk_text k)).
  pose proof (PyFacts.upto_length chunk_text k ltac:(assumption)).
  pose proof (PyFacts.strip_length safe_chunk).
  destruct (Py.truthy safe_chunk); intros E;
    apply (f_equal (fun x => match x with inr (_, y) => y | inl _ => r end)) in E;
    cbv beta iota in E; subst r;
    (rewrite PyFacts.from_beyond; [reflexivity | lia]).
Qed.

(** A cut that does not raise is at a sentence boundary, at an index of at
    least one. *)
Lemma cut_none_shrinks (remaining c r : pystr) :
  remaining <> [] -> cut_n remaining = inr (c, r) ->
  (length r < length remaining)%nat.
Proof.
  intros Hr. unfold cut_none.
  destruct (binary_search_none tokenizer max_tokens remaining)
    as [e | [chunk_text best_break]]; [discriminate|].
  destruct (_ && _).
  - unfold cut_fitting_none.
    set (search_start := Z.max 0 (best_break - best_break / 5)).
    destruct (search_start <? _) eqn:E; [|discriminate].
    apply Z.ltb_lt in E. intros [= _ <-].
    apply PyFacts.strip_from_shorter; [assumption | lia].
  - unfold cut_fallback_none.
    destruct (scan_fallback _ _ _) as [i|] eqn:E; [|discriminate].
    apply scan_fallback_above in E. intros [= _ <-].
    apply PyFacts.strip_from_shorter; [assumption | lia].
Qed.

Lemma iteration_none_shrinks (remaining : pystr) (chunks : list pystr)
    (r : pystr) (cs : list pystr) :
  remaining <> [] -> iteration_n remaining chunks = inr (r, cs) ->
  (length r < length remaining)%nat.
Proof.
  intros Hr. unfold iteration_none.
  destruct (cut_n remaining) as [e | [c r1]] eqn:Ec; [discriminate|].
  pose proof (cut_none_shrinks remaining c r1 Hr Ec) as Hlt.
  destruct (Py.truthy c); [|intros [= <- _]; exact Hlt].
  destruct (verify_n c r1) as [e | [c' r2]] eqn:Ev; [discriminate|].
  apply verify_none_remaining in Ev. subst r2.
  destruct (get_token_count_none tokenizer c'); [discriminate|].
  intros [= <- _]. exact Hlt.
Qed.

(** The loop is left, by a raise or by an empty [remaining], within
    [len(remaining)] passes, for every budget. *)
Lemma split_loop_none_terminates (fuel : nat) :
  forall remaining chunks,
    (length remaining <= fuel)%nat ->
    exists result, split_loop_n fuel remaining chunks = Some result.
Proof.
  induction fuel as [|f IH]; intros remaining chunks Hlen.
  - destruct remaining; [eexists; reflexivity | simpl in Hlen; lia].
  - destruct remaining as [|c t]; [eexists; reflexivity|].
    cbn [split_loop_none].
    destruct (iteration_n (c :: t) chunks) as [e | [r cs]] eqn:Ei;
      [eexists; reflexivity|].
    apply iteration_none_shrinks in Ei; [|discriminate].
    apply IH. simpl in Hlen, Ei. lia.
Qed.

Lemma split_none_returns (fuel : nat) (text : pystr) :
  (length text <= fuel)%nat ->
  exists result,
    split_text_into_chunks_none tokenizer max_tokens fuel text = Some result.
Proof.
  intros Hfuel. unfold split_text_into_chunks_none.
  destruct (get_token_count_none tokenizer text); [eexists; reflexivity|].
  destruct (le_int _ _); [eexists; reflexivity|].
  apply split_loop_none_terminates.
  pose proof (PyFacts.strip_length text). lia.
Qed.

(** *** The only exception the chunker raises is the [AttributeError] *)

Lemma count_none_raises (text : pystr) (e : exn) :
  get_token_count_none tokenizer text = inl e -> e = no_startswith.
Proof.
  unfold get_token_count_none.
  destruct tokenizer as [t|]; [destruct (encode t None text)|];
    congruence.
Qed.

Lemma bsearch_none_raises (s : pystr) (fuel : nat) (e : exn) :
  forall low high c b,
    bsearch_n s fuel low high c b = inl e -> e = no_startswith.
Proof.
  induction fuel as [|f IH]; intros low high c b H; cbn [bsearch_none] in H;
    [discriminate|].
  destruct (low <=? high); [|discriminate].
  destruct (get_token_count_none tokenizer _) as [e' | n] eqn:Ec.
  - apply count_none_raises in Ec. congruence.
  - destruct (le_int n _); apply IH in H; exact H.
Qed.

Lemma cut_none_raises (remaining : pystr) (e : exn) :
  cut_n remaining = inl e -> e = no_startswith.
Proof.
  unfold cut_none, binary_search_none.
  destruct (bsearch_n remaining _ _ _ _ _) as [e' | [c b]] eqn:Eb.
  - apply bsearch_none_raises in Eb. congruence.
  - destruct (_ && _).
    + unfold cut_fitting_none. destruct (_ <? _); congruence.
    + unfold cut_fallback_none. destruct (scan_fallback _ _ _); congruence.
Qed.

Lemma verify_none_raises (chunk_text remaining : pystr) (e : exn) :
  verify_n chunk_text remaining = inl e -> e = no_startswith.
Proof.
  unfold verify_none, binary_search_none.
  destruct (get_token_count_none tokenizer chunk_text) as [e' | n] eqn:Ec.
  - apply count_none_raises in Ec. congruence.
  - destruct (gt_int n _); [|discriminate].
    destruct (bsearch_n chunk_text _ _ _ _ _) as [e' | [c b]] eqn:Eb.
    + apply bsearch_none_raises in Eb. congruence.
    + destruct (Py.truthy c); discriminate.
Qed.

Lemma iteration_none_raises (remaining : pystr) (chunks : list pystr)
    (e : exn) :
  iteration_n remaining chunks = inl e -> e = no_startswith.
Proof.
  unfold iteration_none.
  destruct (cut_n remaining) as [e' | [c r1]] eqn:Ec.
  - apply cut_none_raises in Ec. congruence.
  - destruct (Py.truthy c); [|discriminate].
    destruct (verify_n c r1) as [e' | [c' r2]] eqn:Ev.
    + apply verify_none_raises in Ev. congruence.
    + destruct (get_token_count_none tokenizer c') as [e' | n] eqn:El;
        [|discriminate].
      apply count_none_raises in El. congruence.
Qed.

Lemma split_loop_none_raises (fuel : nat) (e : exn) :
  forall remaining chunks,
    split_loop_n fuel remaining chunks = Some (inl e) -> e = no_startswith.
Proof.
  induction fuel as [|f IH]; intros remaining chunks H.
  - destruct remaining; discriminate.
  - destruct remaining as [|c t]; [discriminate|].
    cbn [split_loop_none] in H.
    destruct (iteration_n (c :: t) chunks) as [e' | [r cs]] eqn:Ei.
    + apply iteration_none_raises in Ei. congruence.
    + apply IH in H. exact H.
Qed.

Lemma split_none_raises (fuel : nat) (text : pystr) (e : exn) :
  split_text_into_chunks_none tokenizer max_tokens fuel text = Some (inl e) ->
  e = no_startswith.
Proof.
  unfold split_text_into_chunks_none.
  destruct (get_token_count_none tokenizer text) as [e' | n] eqn:Ec.
  - apply count_none_raises in Ec. congruence.
  - destruct (le_int n _); [discriminate | apply split_loop_none_raises].
Qed.

End NoSourceLanguageFacts.

Lemma translate_loop_none_raises (m : Model) (tok : Tokenizer)
    (target_lang : pystr) (chunks : list pystr) (e : exn) :
  forall i acc,
    translate_loop_none m tok target_lang i chunks acc = inl e ->
    e = no_startswith.
Proof.
  induction chunks as [|chunk rest IH]; intros i acc H; [discriminate|].
  cbn [translate_loop_none] in H.
  destruct (get_token_count_none (Some tok) chunk) as [e' | n] eqn:Ec.
  - apply count_none_raises in Ec. congruence.
  - destruct (translate_chunk m tok chunk None target_lang); apply IH in H;
      exact H.
Qed.

(** What [except KeyError] and [except Exception] answer. *)
Lemma handled_status (e : exn) :
  exists status_code detail,
    handled e = HTTPException status_code detail
    /\ (status_code = 400 \/ status_code = 500)
    /\ detail <> detail_too_long.
Proof.
  destruct e as [msg | msg]; cbn [handled]; do 2 eexists;
    (split; [reflexivity|]); (split; [auto|]); discriminate.
Qed.

(** With [source_lang = None] the body of the [try] always ends in one of
    its [except] clauses. *)
Lemma translate_none_handled (response_error : pystr) (m : Model)
    (tok : Tokenizer) (fuel : nat) (text target_lang : pystr) :
  translate_none response_error m tok fuel text target_lang = None
  \/ exists e,
       translate_none response_error m tok fuel text target_lang
       = Some (handled e).
Proof.
  unfold translate_none.
  destruct (get_token_count_none (Some tok) text) as [e | n];
    [right; eexists; reflexivity|].
  destruct (gt_int n _).
  - destruct (split_text_into_chunks_none _ _ _ _) as [[e | chunks]|];
      [right; eexists; reflexivity | | left; reflexivity].
    destruct (translate_loop_none _ _ _ _ _ _); right; eexists; reflexivity.
  - destruct (translate_chunk _ _ _ _ _); right; eexists; reflexivity.
Qed.

Lemma translate_none_answers (response_error : pystr) (m : Model)
    (tok : Tokenizer) (fuel : nat) (text target_lang : pystr) :
  (length text <= fuel)%nat ->
  exists e,
    translate_none response_error m tok fuel text target_lang
    = Some (handled e).
Proof.
  intros Hfuel.
  destruct (translate_none_handled response_error m tok fuel text target_lang)
    as [H | H]; [|exact H].
  exfalso. revert H. unfold translate_none.
  destruct (get_token_count_none (Some tok) text) as [e | n]; [discriminate|].
  destruct (gt_int n _).
  - destruct (split_none_returns (Some tok) handler_safe_max_tokens fuel text
                Hfuel) as [result ->].
    destruct result as [e | chunks]; [discriminate|].
    destruct (translate_loop_none _ _ _ _ _ _); discriminate.
  - destruct (translate_chunk _ _ _ _ _); discriminate.
Qed.

(** ** Validation *)

(** C8.  A request is answered from the checks alone when one of them
    fails: 503 when the model or the tokenizer is not loaded, else 400 when
    the text is longer than [MAX_TEXT_LENGTH], else 400 when it is empty
    after trimming.  The answer is the same for every tokenizer, every
    model and every fuel, zero included: neither the token count nor the
    chunker takes part in it, and the handler is a single pass. *)
Theorem validation_comes_first (response_error : pystr) (fuel : nat)
    (request : TranslationRequest.t) :
  (forall g,
      model g = None \/ tokenizer g = None ->
      translate response_error g fuel request
      = Some (HTTPException 503 detail_not_loaded))
  /\ (forall m tok,
        text_too_long request = true ->
        translate response_error (mkGlobals (Some m) (Some tok)) fuel request
        = Some (HTTPException 400 detail_too_long))
  /\ (forall m tok,
        text_too_long request = false ->
        Py.strip (TranslationRequest.text request) = [] ->
        translate response_error (mkGlobals (Some m) (Some tok)) fuel request
        = Some (HTTPException 400 detail_empty)).
Proof.
  split; [|split].
  - intros g [H | H]; unfold translate; rewrite H; [reflexivity|].
    destruct (model g); reflexivity.
  - intros m tok H. unfold translate. cbn [model tokenizer]. rewrite H.
    reflexivity.
  - intros m tok H1 H2. unfold translate. cbn [model tokenizer].
    rewrite H1, H2. reflexivity.
Qed.

Lemma validation_comes_first_witness :
  translate sample_response_error (mkGlobals None (Some one_per_char)) 0
    (TranslationRequest.mk (Py.lit "hello") (Some (Py.lit "khm_Khmr"))
       (Py.lit "eng_Latn"))
  = Some (HTTPException 503 detail_not_loaded)
  /\ translate sample_response_error
       (mkGlobals (Some (failing_on [])) (Some one_per_char)) 0
       (TranslationRequest.mk (letters 5001) None (Py.lit "eng_Latn"))
     = Some (HTTPException 400 detail_too_long)
  /\ translate sample_response_error
       (mkGlobals (Some (failing_on [])) (Some one_per_char)) 0
       (TranslationRequest.mk (Py.lit "   ") (Some (Py.lit "khm_Khmr"))
          (Py.lit "eng_Latn"))
     = Some (HTTPException 400 detail_empty).
Proof.
  split; [|split].
  - apply (validation_comes_first sample_response_error 0). left. reflexivity.
  - apply (validation_comes_first sample_response_error 0). vm_compute.
    reflexivity.
  - apply (validation_comes_first sample_response_error 0); vm_compute;
      reflexivity.
Defined.

(** C10.  For a request that passed the field constraint on [text]
    (between 1 and [MAX_TEXT_LENGTH] characters) the handler's own length
    test is false, and the handler never answers with the "Text too long"
    error: every other outcome has another status or another detail. *)
Theorem length_check_unreachable (response_error : pystr) (g : Globals)
    (fuel : nat) (request : TranslationRequest.t) :
  field_valid request = true ->
  text_too_long request = false
  /\ translate response_error g fuel request
     <> Some (HTTPException 400 detail_too_long).
Proof.
  intros Hv. unfold field_valid in Hv. apply andb_true_iff in Hv.
  destruct Hv as [_ Hmax]. apply Z.leb_le in Hmax.
  assert (Hno : text_too_long request = false)
    by (unfold text_too_long; apply Z.ltb_ge; exact Hmax).
  split; [exact Hno|].
  unfold translate. rewrite Hno.
  destruct (model g) as [m|]; [|discriminate].
  destruct (tokenizer g) as [tok|]; [|discriminate].
  destruct (negb _); [vm_compute; discriminate|].
  unfold translate_loaded.
  destruct (TranslationRequest.source_lang request) as [source_lang|].
  - destruct (gt_int _ _).
    + destruct (split_text_into_chunks _ _ _ _ _); discriminate.
    + destruct (translate_chunk _ _ _ _ _) as [[e | e] | t]; discriminate.
  - destruct (translate_none_handled response_error m tok fuel
                (TranslationRequest.text request)
                (TranslationRequest.target_lang request)) as [-> | [e ->]];
      [discriminate|].
    destruct (handled_status e) as (code & detail & -> & _ & Hd).
    intros [= _ H]. exact (Hd H).
Qed.

Lemma length_check_unreachable_witness :
  text_too_long
    (TranslationRequest.mk (letters 5000) (Some (Py.lit "khm_Khmr"))
       (Py.lit "eng_Latn"))
  = false.
Proof.
  apply (length_check_unreachable sample_response_error
           (mkGlobals None None) 0).
  vm_compute. reflexivity.
Defined.

(** ** Reassembly *)

Section ReplaceFacts.

Variables old new : pystr.
Hypothesis old_nonempty : old <> [].

Lemma startswith_split (p s : pystr) :
  Py.startswith s p = true -> s = p ++ skipn (length p) s.
Proof.
  revert s. induction p as [|a p IH]; intros s H; [reflexivity|].
  destruct s as [|c s]; [discriminate|].
  simpl in H. apply andb_true_iff in H. destruct H as [Hac Hs].
  apply N.eqb_eq in Hac. subst c. simpl. f_equal. apply IH. exact Hs.
Qed.

Lemma split_go_nonempty (s : pystr) :
  forall skip cur, Py.split_go old s skip cur <> [].
Proof.
  induction s as [|c t IH]; intros skip cur; cbn [Py.split_go]; [discriminate|].
  destruct skip; [|apply IH].
  destruct (Py.startswith (c :: t) old); [discriminate | apply IH].
Qed.

Lemma restore_cons (k : nat) (p : pystr) (rest : list pystr) :
  rest <> [] ->
  restore old new k (p :: rest)
  = p ++ match k with
         | O => old ++ restore old new 0 rest
         | S k' => new ++ restore old new k' rest
         end.
Proof.
  intros H. destruct rest as [|q rest]; [congruence|].
  destruct k; reflexivity.
Qed.

(** Filling every gap with [old] is [old.join(pieces)]. *)
Lemma restore_join (pieces : list pystr) :
  restore old new 0 pieces = Py.join old pieces.
Proof.
  induction pieces as [|p [|q rest] IH]; try reflexivity.
  change (p ++ old ++ restore old new 0 (q :: rest)
          = p ++ old ++ Py.join old (q :: rest)).
  rewrite IH. reflexivity.
Qed.

(** After a match at the head, the scan resumes behind the separator. *)
Lemma after_match (c : N) (t : pystr) :
  Py.startswith (c :: t) old = true ->
  c :: t = old ++ skipn (length old - 1) t.
Proof.
  intros H. pose proof (startswith_split old (c :: t) H) as E.
  destruct old as [|a o]; [congruence|].
  cbn [length skipn] in E. cbn [length].
  replace (S (length o) - 1)%nat with (length o) by lia. exact E.
Qed.

(** [split] undone by [join]. *)
Lemma split_go_join (s : pystr) :
  forall skip cur,
    restore old new 0 (Py.split_go old s skip cur) = rev cur ++ skipn skip s.
Proof.
  induction s as [|c t IH]; intros skip cur.
  - cbn [Py.split_go restore]. rewrite skipn_nil, app_nil_r. reflexivity.
  - cbn [Py.split_go]. destruct skip as [|j]; [|apply IH].
    destruct (Py.startswith (c :: t) old) eqn:E.
    + rewrite restore_cons by apply split_go_nonempty.
      rewrite IH. cbn [rev app skipn].
      rewrite <- (after_match c t E). reflexivity.
    + rewrite IH. cbn [rev skipn]. rewrite <- app_assoc. reflexivity.
Qed.

(** [replace] fills the first [count] gaps between the pieces of [split]
    with [new] and leaves the other gaps as they were. *)
Lemma replace_go_restore (s : pystr) :
  forall skip cur count,
    rev cur ++ Py.replace_go old new s skip count
    = restore old new count (Py.split_go old s skip cur).
Proof.
  induction s as [|c t IH]; intros skip cur count.
  - cbn [Py.replace_go Py.split_go restore]. apply app_nil_r.
  - destruct skip as [|j]; [|apply IH].
    destruct count as [|n].
    + rewrite (split_go_join (c :: t) 0 cur). reflexivity.
    + cbn [Py.replace_go Py.split_go].
      destruct (Py.startswith (c :: t) old) eqn:E.
      * rewrite restore_cons by apply split_go_nonempty.
        rewrite <- (IH (length old - 1)%nat [] n). reflexivity.
      * rewrite <- (IH 0%nat (c :: cur) (S n)). cbn [rev].
        rewrite <- app_assoc. reflexivity.
Qed.

Lemma find_from_split (s : pystr) :
  forall i j cur,
    Py.find_from old s i = Some j ->
    (1 < length (Py.split_go old s 0 cur))%nat.
Proof.
  induction s as [|c t IH]; intros i j cur H.
  - simpl in H. destruct old; [congruence | discriminate].
  - cbn [Py.find_from] in H. cbn [Py.split_go].
    destruct (Py.startswith (c :: t) old) eqn:E.
    + cbn [length].
      pose proof (split_go_nonempty t (length old - 1) []) as Hn.
      destruct (Py.split_go old t (length old - 1) []); [congruence | simpl; lia].
    + apply (IH _ _ _ H).
Qed.

End ReplaceFacts.

(** C9.  The reassembled text is the translated chunks joined by one blank,
    [joined], when the original text has no double newline.  When it has
    one, the original splits into [P > 1] paragraphs and the result is
    [joined] with the first [P - 1] occurrences of period-blank (all of them
    when there are fewer) turned into period-newline-newline: cut at every
    period-blank, [joined] falls into pieces that join back to it, and the
    result fills the first [P - 1] gaps with the new separator and the
    others with the old one.  The chunked path of the handler answers with
    this text whenever the request's [source_lang] is a string and the fuel
    covers the length of the text. *)
Theorem reassembly (translated_chunks : list pystr) (text : pystr) :
  let joined := Py.join (Py.lit " ") translated_chunks in
  let P := length (Py.split double_newline text) in
  let pieces := Py.split (Py.lit ". ") joined in
  (Py.contains double_newline text = false ->
   reassemble translated_chunks text = joined)
  /\ (Py.contains double_newline text = true ->
      (1 < P)%nat
      /\ reassemble translated_chunks text
         = restore (Py.lit ". ") (Py.lit "." ++ double_newline) (P - 1) pieces)
  /\ Py.join (Py.lit ". ") pieces = joined
  /\ (forall response_error m tok fuel request source_lang,
         TranslationRequest.text request = text ->
         TranslationRequest.source_lang request = Some source_lang ->
         gt_int (get_token_count (Some tok) text source_lang)
           handler_safe_max_tokens = true ->
         (length text <= fuel)%nat ->
         exists chunks,
           split_text_into_chunks (Some tok) source_lang
             handler_safe_max_tokens fuel text = Some chunks
           /\ translate_loaded response_error m tok fuel request
              = Some (Response (TranslationResponse.mk
                                  (reassemble
                                     (translate_chunks m tok
                                        (TranslationRequest.source_lang request)
                                        (TranslationRequest.target_lang request)
                                        chunks)
                                     text)
                                  source_lang
                                  (TranslationRequest.target_lang request)))).
Proof.
  intros joined P pieces.
  assert (Hold : Py.lit ". " <> []) by discriminate.
  split; [|split; [|split]].
  - intros H. unfold reassemble. rewrite H. reflexivity.
  - intros H. unfold Py.contains, Py.find in H.
    destruct (Py.find_from double_newline text 0) as [j|] eqn:Ef; [|discriminate].
    assert (HP : (1 < P)%nat).
    { apply (find_from_split double_newline ltac:(discriminate) text 0%nat j []).
      exact Ef. }
    split; [exact HP|].
    unfold reassemble, Py.contains, Py.find. rewrite Ef.
    fold P. apply Nat.ltb_lt in HP. rewrite HP.
    unfold Py.replace. fold joined.
    replace (Z.to_nat (Z.of_nat P - 1)) with (P - 1)%nat by lia.
    apply (replace_go_restore (Py.lit ". ") (Py.lit "." ++ double_newline)
             Hold joined 0%nat [] (P - 1)%nat).
  - unfold pieces, Py.split.
    rewrite <- (restore_join (Py.lit ". ") (Py.lit ". ")).
    apply (split_go_join (Py.lit ". ") (Py.lit ". ") Hold joined 0%nat []).
  - intros response_error m tok fuel request source_lang Ht Hlang Hgt Hfuel.
    subst text. rewrite Hlang.
    apply chunked_path_responds; assumption.
Qed.

Lemma reassembly_witness :
  reassemble [Py.lit "One. Two."; Py.lit "Three. Four."]
    (Py.lit "a" ++ double_newline ++ Py.lit "b")
  = Py.lit "One." ++ double_newline ++ Py.lit "Two. Three. Four.".
Proof.
  destruct (reassembly [Py.lit "One. Two."; Py.lit "Three. Four."]
              (Py.lit "a" ++ double_newline ++ Py.lit "b")) as (_ & H & _).
  destruct (H eq_refl) as [_ E]. rewrite E. reflexivity.
Defined.

(** * Further properties of the code *)

(** ** Trimmed strings *)

Module TrimFacts.

Lemma no_lead_lstrip (s : pystr) : no_lead (Py.lstrip s).
Proof.
  induction s as [|c t IH]; simpl; [exact I|].
  destruct (Py.isspace c) eqn:E; [exact IH | exact E].
Qed.

Lemma lstrip_no_lead (s : pystr) : no_lead s -> Py.lstrip s = s.
Proof. destruct s as [|c t]; simpl; [reflexivity|]. intros ->. reflexivity. Qed.

(** [lstrip] returns a suffix. *)
Lemma lstrip_suffix (s : pystr) : exists p, s = p ++ Py.lstrip s.
Proof.
  induction s as [|c t [p IH]]; [exists []; reflexivity|].
  simpl. destruct (Py.isspace c).
  - exists (c :: p). simpl. f_equal. exact IH.
  - exists []. reflexivity.
Qed.

(** Removing leading whitespace does not expose trailing whitespace. *)
Lemma no_trail_lstrip (s : pystr) :
  no_lead (rev s) -> no_lead (rev (Py.lstrip s)).
Proof.
  intros H. destruct (lstrip_suffix s) as [p E].
  destruct (Py.lstrip s) as [|c t] eqn:El; [exact I|].
  rewrite E, rev_app_distr in H.
  destruct (rev (c :: t)) as [|d r] eqn:Er.
  - apply (f_equal (@length N)) in Er. rewrite length_rev in Er. discriminate.
  - exact H.
Qed.

Lemma strip_no_lead (s : pystr) : no_lead (Py.strip s).
Proof. apply no_lead_lstrip. Qed.

Lemma strip_no_trail (s : pystr) : no_lead (rev (Py.strip s)).
Proof.
  unfold Py.strip, Py.rstrip. apply no_trail_lstrip.
  rewrite rev_involutive. apply no_lead_lstrip.
Qed.

Lemma trimmed_iff (s : pystr) : trimmed s <-> no_lead s /\ no_lead (rev s).
Proof.
  unfold trimmed. split.
  - intros E. rewrite <- E. split; [apply strip_no_lead | apply strip_no_trail].
  - intros [H1 H2]. unfold Py.strip, Py.rstrip.
    rewrite (lstrip_no_lead _ H2), rev_involutive. apply lstrip_no_lead, H1.
Qed.

(** [s.strip().strip() == s.strip()] *)
Lemma strip_trimmed (s : pystr) : trimmed (Py.strip s).
Proof. apply trimmed_iff. split; [apply strip_no_lead | apply strip_no_trail]. Qed.

(** A prefix that keeps the non-blank first character does not trim to
    nothing. *)
Lemma strip_upto_nonempty (s : pystr) (k : Z) :
  s <> [] -> no_lead s -> 1 <= k -> Py.strip (Py.upto s k) <> [].
Proof.
  intros Hs Hl Hk E.
  pose proof (PyFacts.non_whitespace_strip (Py.upto s k)) as H.
  rewrite E in H. destruct s as [|c t]; [congruence|].
  unfold Py.upto in H.
  pose proof (PyFacts.clamp_pos (Py.len (c :: t)) k) as Hc.
  unfold Py.len in Hc. cbn [length] in Hc.
  destruct (Py.clamp _ k) as [|n]; [lia|].
  simpl in Hl. simpl in H. rewrite Hl in H. discriminate.
Qed.

End TrimFacts.

(** ** The binary search *)

Section SearchFacts.

Variable tokenizer : option Tokenizer.
Variable source_lang : pystr.
Variable max_tokens : Z.

#[local] Abbreviation bsearch_ := (bsearch tokenizer source_lang max_tokens).
#[local] Abbreviation binary_search_ := (binary_search tokenizer source_lang max_tokens).
#[local] Abbreviation fits_ := (fits tokenizer source_lang max_tokens).

Lemma bsearch_upper (s : pystr) (bound : Z) (fuel : nat) :
  forall low high c b,
    b <= bound -> high <= bound -> 1 <= low ->
    snd (bsearch_ s fuel low high c b) <= bound.
Proof.
  induction fuel as [|f IH]; intros low high c b Hb Hh Hl; cbn [bsearch];
    [exact Hb|].
  destruct (low <=? high) eqn:E; [|exact Hb].
  apply Z.leb_le in E.
  assert (low <= (low + high) / 2) by (apply Z.div_le_lower_bound; lia).
  assert ((low + high) / 2 <= high) by (apply Z.div_le_upper_bound; lia).
  destruct (fits_ _); apply IH; lia.
Qed.

(** Under a downward closed [fits], no fitting prefix length lies above
    what the search returns. *)
Lemma bsearch_maximal (s : pystr) :
  (forall j k, 1 <= j <= k -> fits_ (Py.upto s k) = true ->
               fits_ (Py.upto s j) = true) ->
  forall k, fits_ (Py.upto s k) = true ->
  forall fuel low high c b,
    high - low + 1 <= Z.of_nat fuel -> 1 <= low -> b < low ->
    k <= b \/ low <= k <= high ->
    k <= snd (bsearch_ s fuel low high c b).
Proof.
  intros Hmono k Hk.
  induction fuel as [|f IH]; intros low high c b Hf Hl Hb Hin; cbn [bsearch].
  - cbn [snd]. lia.
  - destruct (low <=? high) eqn:E; [|apply Z.leb_gt in E; cbn [snd]; lia].
    apply Z.leb_le in E.
    assert (Hlo : low <= (low + high) / 2) by (apply Z.div_le_lower_bound; lia).
    assert (Hhi : (low + high) / 2 <= high) by (apply Z.div_le_upper_bound; lia).
    destruct (fits_ (Py.upto s ((low + high) / 2))) eqn:Em.
    + apply IH; lia.
    + apply IH; try lia.
      destruct Hin as [Hin | Hin]; [left; exact Hin|].
      destruct (Z_lt_le_dec k ((low + high) / 2)) as [Hlt | Hge]; [right; lia|].
      rewrite (Hmono ((low + high) / 2) k) in Em by (try assumption; lia).
      discriminate.
Qed.

End SearchFacts.

(** X1.  Whatever the tokenizer answers, the binary search returns either
    nothing ([""], 0) or a prefix it has measured: [best_break] lies in
    [1 .. len(s)], [chunk_text] is [s[:best_break]] and its token count is
    within [max_tokens - 50]. *)
Theorem binary_search_sound (tokenizer : option Tokenizer)
    (source_lang : pystr) (max_tokens : Z) (s : pystr) :
  let r := binary_search tokenizer source_lang max_tokens s in
  (fst r = [] /\ snd r = 0)
  \/ (1 <= snd r <= Py.len s
      /\ fst r = Py.upto s (snd r)
      /\ value (get_token_count tokenizer (fst r) source_lang)
         <= max_tokens - 50).
Proof.
  intros r.
  destruct (binary_search_kept tokenizer source_lang max_tokens s)
    as [H | (Hb & Hc & Hf)]; [left; exact H|].
  right. repeat split; try assumption.
  - unfold r, binary_search. apply bsearch_upper; try lia.
    apply PyFacts.len_nonneg.
  - unfold fits, le_int, safe_max_tokens in Hf. apply Z.leb_le. exact Hf.
Qed.

(** X2.  When fitting is downward closed on the prefixes of [s] (a prefix of
    a fitting prefix fits), the binary search returns the longest fitting
    prefix: no [k] in [1 .. len(s)] with a fitting [s[:k]] exceeds
    [best_break]. *)
Theorem binary_search_maximal (tokenizer : option Tokenizer)
    (source_lang : pystr) (max_tokens : Z) (s : pystr) :
  (forall j k,
      1 <= j <= k ->
      fits tokenizer source_lang max_tokens (Py.upto s k) = true ->
      fits tokenizer source_lang max_tokens (Py.upto s j) = true) ->
  forall k,
    1 <= k <= Py.len s ->
    fits tokenizer source_lang max_tokens (Py.upto s k) = true ->
    k <= snd (binary_search tokenizer source_lang max_tokens s).
Proof.
  intros Hmono k Hk Hf. unfold binary_search.
  apply (bsearch_maximal tokenizer source_lang max_tokens s Hmono k Hf);
    unfold Py.len in *; lia.
Qed.

Lemma upto_length_mono (s : pystr) (j k : Z) :
  0 <= j <= k -> (length (Py.upto s j) <= length (Py.upto s k))%nat.
Proof.
  intros H. unfold Py.upto. rewrite !length_firstn.
  rewrite !PyFacts.clamp_nonneg by lia. lia.
Qed.

Lemma binary_search_maximal_witness :
  3 <= snd (binary_search (Some one_per_char) (Py.lit "eng_Latn") 53
              (Py.lit "abcdef")).
Proof.
  apply (binary_search_maximal (Some one_per_char) (Py.lit "eng_Latn") 53
           (Py.lit "abcdef")).
  - intros j k Hjk.
    unfold fits, le_int, get_token_count, safe_max_tokens.
    cbn [encode one_per_char value].
    rewrite !length_map, !Z.leb_le.
    pose proof (upto_length_mono (Py.lit "abcdef") j k ltac:(lia)). lia.
  - vm_compute. split; discriminate.
  - vm_compute. reflexivity.
Defined.

(** ** Shape of the chunks *)

Module SubseqFacts.

Lemma subseq_refl (a : pystr) : subseq a a.
Proof. induction a; constructor; assumption. Qed.

Lemma subseq_skip_app (x a b : pystr) : subseq a b -> subseq a (x ++ b).
Proof. intros H. induction x; simpl; [exact H | constructor; assumption]. Qed.

Lemma subseq_keep_app (x a b : pystr) : subseq a b -> subseq (x ++ a) (x ++ b).
Proof. intros H. induction x; simpl; [exact H | constructor; assumption]. Qed.

Lemma subseq_length (a b : pystr) : subseq a b -> (length a <= length b)%nat.
Proof. induction 1; simpl; lia. Qed.

End SubseqFacts.

Section LoopFacts.

Variable tokenizer : option Tokenizer.
Variable source_lang : pystr.
Variable max_tokens : Z.

#[local] Abbreviation safe_ := (safe_max_tokens max_tokens).
#[local] Abbreviation binary_search_l := (binary_search tokenizer source_lang max_tokens).
#[local] Abbreviation fits_l := (fits tokenizer source_lang max_tokens).
#[local] Abbreviation cut_l := (cut tokenizer source_lang max_tokens).
#[local] Abbreviation verify_l := (verify tokenizer source_lang max_tokens).
#[local] Abbreviation iteration_l := (iteration tokenizer source_lang max_tokens).
#[local] Abbreviation split_loop_l := (split_loop tokenizer source_lang max_tokens).
#[local] Abbreviation can_cut_l := (can_cut tokenizer source_lang max_tokens).

(** *** Both halves of a cut are trimmed *)

Lemma cut_fitting_trimmed (remaining chunk_text : pystr) (best_break : Z) :
  let r := cut_fitting source_lang remaining chunk_text best_break in
  trimmed (fst r) /\ trimmed (snd r).
Proof.
  unfold cut_fitting.
  destruct (_ <? _); [|destruct (negb _); [destruct (_ <? _)|]];
    cbn [fst snd]; split; apply TrimFacts.strip_trimmed.
Qed.

Lemma cut_fallback_trimmed (remaining : pystr) :
  let r := cut_fallback source_lang max_tokens remaining in
  trimmed (fst r) /\ trimmed (snd r).
Proof.
  unfold cut_fallback.
  destruct (scan_fallback _ _ _); [|destruct (negb _); [destruct (_ <? _)|]];
    cbn [fst snd]; split; apply TrimFacts.strip_trimmed.
Qed.

Lemma cut_trimmed (remaining : pystr) :
  trimmed (fst (cut_l remaining)) /\ trimmed (snd (cut_l remaining)).
Proof.
  unfold cut. destruct (binary_search_l remaining) as [c b].
  destruct (_ && _); [apply cut_fitting_trimmed | apply cut_fallback_trimmed].
Qed.

Lemma verify_trimmed (chunk_text remaining : pystr) :
  trimmed chunk_text -> trimmed (fst (verify_l chunk_text remaining)).
Proof.
  intros H. unfold verify. destruct (gt_int _ _); [|exact H].
  destruct (binary_search_l chunk_text) as [c b].
  destruct (Py.truthy c); cbn [fst]; apply TrimFacts.strip_trimmed.
Qed.

Lemma iteration_trimmed (remaining : pystr) (chunks : list pystr) :
  Forall trimmed chunks ->
  Forall trimmed (snd (iteration_l remaining chunks)).
Proof.
  intros Hall. unfold iteration.
  pose proof (cut_trimmed remaining) as [Hc _].
  destruct (cut_l remaining) as [x y]. cbn [fst] in Hc.
  destruct (Py.truthy x); [|exact Hall].
  pose proof (verify_trimmed x y Hc) as Hv.
  destruct (verify_l x y) as [x' y']. cbn [fst snd] in *.
  apply Forall_app. split; [exact Hall | constructor; [exact Hv | constructor]].
Qed.

(** A property of chunks that every pass preserves holds of the result. *)
Lemma split_loop_invariant (P : list pystr -> Prop) :
  (forall remaining chunks,
      remaining <> [] -> P chunks -> P (snd (iteration_l remaining chunks))) ->
  forall fuel remaining chunks result,
    P chunks ->
    split_loop_l fuel remaining chunks = Some result ->
    P result.
Proof.
  intros Hstep. induction fuel as [|f IH]; intros remaining chunks result HP H.
  - destruct remaining; [|discriminate]. injection H as <-. exact HP.
  - destruct remaining as [|c t]; [injection H as <-; exact HP|].
    cbn [split_loop] in H.
    pose proof (Hstep (c :: t) chunks ltac:(discriminate) HP) as HP'.
    destruct (iteration_l (c :: t) chunks) as [r cs]. cbn [snd] in HP'.
    exact (IH _ _ _ HP' H).
Qed.

Lemma split_loop_trimmed (fuel : nat) (remaining : pystr)
    (chunks result : list pystr) :
  Forall trimmed chunks ->
  split_loop_l fuel remaining chunks = Some result ->
  Forall trimmed result.
Proof.
  apply (split_loop_invariant (Forall trimmed)).
  intros r cs _. apply iteration_trimmed.
Qed.

(** *** No empty chunk while a single character fits *)

Lemma verify_nonempty (chunk_text remaining : pystr) :
  (forall c : N, fits_l [c] = true) ->
  chunk_text <> [] -> trimmed chunk_text ->
  fst (verify_l chunk_text remaining) <> [].
Proof.
  intros H1 Hne Ht. unfold verify. destruct (gt_int _ _); [|exact Hne].
  destruct (binary_search_finds tokenizer source_lang max_tokens chunk_text Hne)
    as (Hb & Hc & _ & Htr).
  { destruct chunk_text as [|c t]; [congruence|]. rewrite upto_one. apply H1. }
  destruct (binary_search_l chunk_text) as [safe_chunk safe_length].
  cbn [fst snd] in *. rewrite Htr. cbn [fst]. rewrite Hc.
  apply TrimFacts.strip_upto_nonempty; try assumption.
  apply TrimFacts.trimmed_iff in Ht. apply Ht.
Qed.

Lemma iteration_nonempty (remaining : pystr) (chunks : list pystr) :
  (forall c : N, fits_l [c] = true) ->
  Forall (fun chunk => chunk <> []) chunks ->
  Forall (fun chunk => chunk <> []) (snd (iteration_l remaining chunks)).
Proof.
  intros H1 Hall. unfold iteration.
  pose proof (cut_trimmed remaining) as [Hc _].
  destruct (cut_l remaining) as [x y]. cbn [fst] in Hc.
  destruct (Py.truthy x) eqn:Et; [|exact Hall].
  apply PyFacts.truthy_nonempty in Et.
  pose proof (verify_nonempty x y H1 Et Hc) as Hv.
  destruct (verify_l x y) as [x' y']. cbn [fst snd] in *.
  apply Forall_app. split; [exact Hall | constructor; [exact Hv | constructor]].
Qed.

(** *** The first pass always appends *)

Lemma cut_fitting_nonempty (remaining : pystr) (best_break : Z) :
  remaining <> [] -> no_lead remaining -> 1 <= best_break ->
  fst (cut_fitting source_lang remaining (Py.upto remaining best_break) best_break)
  <> [].
Proof.
  intros Hr Hl Hb. unfold cut_fitting.
  set (search_start := Z.max 0 (best_break - best_break / 5)).
  assert (0 <= search_start) by lia.
  destruct (search_start <? _) eqn:E1.
  { apply Z.ltb_lt in E1. cbn [fst].
    apply TrimFacts.strip_upto_nonempty; try assumption. lia. }
  destruct (negb _); [destruct (4 * search_start <? _) eqn:E2|]; cbn [fst];
    apply TrimFacts.strip_upto_nonempty; try assumption.
  apply Z.ltb_lt in E2. lia.
Qed.

Lemma cut_fallback_nonempty (remaining : pystr) :
  remaining <> [] -> no_lead remaining -> 1 <= safe_ ->
  fst (cut_fallback source_lang max_tokens remaining) <> [].
Proof.
  intros Hr Hl Hs. unfold cut_fallback.
  set (fallback_length := Z.min (Py.len remaining) (safe_ * 2)).
  assert (1 <= fallback_length).
  { unfold fallback_length, Py.len.
    destruct remaining; [congruence | simpl length; lia]. }
  destruct (scan_fallback _ _ _) as [i|] eqn:E.
  { apply scan_fallback_above in E. cbn [fst].
    apply TrimFacts.strip_upto_nonempty; try assumption. lia. }
  destruct (negb _); [destruct (0 <? _) eqn:E2|]; cbn [fst];
    apply TrimFacts.strip_upto_nonempty; try assumption.
  apply Z.ltb_lt in E2. lia.
Qed.

Lemma cut_nonempty (remaining : pystr) :
  remaining <> [] -> no_lead remaining -> can_cut_l remaining ->
  fst (cut_l remaining) <> [].
Proof.
  intros Hr Hl Hc. unfold cut.
  pose proof (binary_search_kept tokenizer source_lang max_tokens remaining) as Hk.
  destruct (binary_search_l remaining) as [chunk_text best_break] eqn:Eb.
  cbn [fst snd] in Hk.
  destruct (Py.truthy chunk_text && (0 <? best_break)) eqn:E.
  - destruct Hk as [[-> _] | (Hb & -> & _)]; [discriminate E|].
    apply cut_fitting_nonempty; assumption.
  - destruct Hc as [Hs | H1]; [apply cut_fallback_nonempty; assumption|].
    destruct (binary_search_finds tokenizer source_lang max_tokens remaining Hr H1)
      as (Hb & _ & _ & Ht).
    rewrite Eb in Hb, Ht. cbn [fst snd] in Hb, Ht.
    assert (Hb' : (0 <? best_break) = true) by (apply Z.ltb_lt; lia).
    rewrite Ht, Hb' in E. discriminate.
Qed.

(** The loop never takes a chunk back. *)
Lemma split_loop_grows (fuel : nat) :
  forall remaining chunks result,
    split_loop_l fuel remaining chunks = Some result ->
    exists tail, result = chunks ++ tail.
Proof.
  induction fuel as [|f IH]; intros remaining chunks result H.
  - destruct remaining; [|discriminate]. injection H as <-.
    exists []. symmetry. apply app_nil_r.
  - destruct remaining as [|c t];
      [injection H as <-; exists []; symmetry; apply app_nil_r|].
    cbn [split_loop] in H.
    assert (Hi : exists one, snd (iteration_l (c :: t) chunks) = chunks ++ one).
    { unfold iteration. destruct (cut_l (c :: t)) as [x y].
      destruct (Py.truthy x); [|exists []; symmetry; apply app_nil_r].
      destruct (verify_l x y) as [x' y']. exists [x']. reflexivity. }
    destruct (iteration_l (c :: t) chunks) as [r cs]. cbn [snd] in Hi.
    destruct Hi as [one ->]. destruct (IH _ _ _ H) as [tail ->].
    exists (one ++ tail). symmetry. apply app_assoc.
Qed.

Lemma first_pass_appends (remaining : pystr) (chunks : list pystr) :
  remaining <> [] -> no_lead remaining -> can_cut_l remaining ->
  exists chunk, snd (iteration_l remaining chunks) = chunks ++ [chunk].
Proof.
  intros Hr Hl Hc. unfold iteration.
  pose proof (cut_nonempty remaining Hr Hl Hc) as Hne.
  destruct (cut_l remaining) as [x y]. cbn [fst] in Hne.
  apply PyFacts.truthy_nonempty in Hne. rewrite Hne.
  destruct (verify_l x y) as [x' y']. exists x'. reflexivity.
Qed.

(** *** Nothing is repeated or reordered *)

(** The re-measurement keeps a prefix of the chunk's content. *)
Lemma verify_prefix (chunk_text remaining : pystr) :
  exists rest,
    non_whitespace chunk_text
    = non_whitespace (fst (verify_l chunk_text remaining)) ++ rest.
Proof.
  assert (Hup : forall k, exists rest,
             non_whitespace chunk_text
             = non_whitespace (Py.strip (Py.upto chunk_text k)) ++ rest).
  { intros k. exists (non_whitespace (Py.from chunk_text k)).
    rewrite PyFacts.non_whitespace_strip, <- PyFacts.non_whitespace_app,
      PyFacts.upto_from. reflexivity. }
  unfold verify. destruct (gt_int _ _);
    [|exists []; symmetry; apply app_nil_r].
  pose proof (binary_search_kept tokenizer source_lang max_tokens chunk_text) as Hk.
  destruct (binary_search_l chunk_text) as [safe_chunk safe_length].
  cbn [fst snd] in Hk.
  destruct (Py.truthy safe_chunk) eqn:Et; cbn [fst]; [|apply Hup].
  destruct Hk as [[-> _] | (_ & -> & _)]; [discriminate Et | apply Hup].
Qed.

Lemma split_loop_subseq (fuel : nat) :
  forall remaining chunks result,
    split_loop_l fuel remaining chunks = Some result ->
    exists tail,
      result = chunks ++ tail
      /\ subseq (non_whitespace (concat tail)) (non_whitespace remaining).
Proof.
  induction fuel as [|f IH]; intros remaining chunks result H.
  - destruct remaining; [|discriminate]. injection H as <-.
    exists []. split; [symmetry; apply app_nil_r | constructor].
  - destruct remaining as [|c t].
    { injection H as <-. exists []. split; [symmetry; apply app_nil_r | constructor]. }
    cbn [split_loop] in H. revert H. unfold iteration.
    pose proof (cut_covers tokenizer source_lang max_tokens (c :: t)) as Hc.
    destruct (cut_l (c :: t)) as [x y]. cbn [fst snd] in Hc.
    destruct (Py.truthy x).
    + destruct (verify_prefix x y) as [rest Hp].
      pose proof (verify_remaining tokenizer source_lang max_tokens x y) as Hr.
      destruct (verify_l x y) as [x' y']. cbn [fst snd] in *. subst y'.
      intros H. destruct (IH _ _ _ H) as [tail [-> Hs]].
      exists (x' :: tail). split; [rewrite <- app_assoc; reflexivity|].
      cbn [concat]. rewrite PyFacts.non_whitespace_app, <- Hc, Hp, <- app_assoc.
      apply SubseqFacts.subseq_keep_app, SubseqFacts.subseq_skip_app. exact Hs.
    + intros H. destruct (IH _ _ _ H) as [tail [-> Hs]].
      exists tail. split; [reflexivity|].
      rewrite <- Hc. apply SubseqFacts.subseq_skip_app. exact Hs.
Qed.

End LoopFacts.

(** X3.  Every chunk the loop produces is trimmed: when the text does not
    fit in one chunk, no chunk of the result starts or ends with
    whitespace, whatever the tokenizer answers and also after a chunk was
    reduced. *)
Theorem chunks_are_trimmed (tokenizer : option Tokenizer)
    (source_lang : pystr) (max_tokens : Z) (fuel : nat) (text : pystr)
    (chunks : list pystr) :
  max_tokens - 50 < value (get_token_count tokenizer text source_lang) ->
  split_text_into_chunks tokenizer source_lang max_tokens fuel text
  = Some chunks ->
  Forall (fun chunk => Py.strip chunk = chunk) chunks.
Proof.
  intros Hover. unfold split_text_into_chunks, le_int, safe_max_tokens.
  apply Z.leb_gt in Hover. rewrite Hover.
  apply split_loop_trimmed. constructor.
Qed.

Lemma chunks_are_trimmed_witness :
  Forall (fun chunk => Py.strip chunk = chunk)
    [Py.lit "One."; Py.lit "Two"; Py.lit "thre"; Py.lit "e"].
Proof.
  apply (chunks_are_trimmed (Some one_per_char) (Py.lit "eng_Latn") 54 20
           (Py.lit " One. Two three ")).
  - vm_compute. reflexivity.
  - vm_compute. reflexivity.
Defined.

(** X4.  When every one-character string fits the budget, a text that does
    not fit in one chunk is split into chunks none of which is empty. *)
Theorem chunks_are_nonempty (tokenizer : option Tokenizer)
    (source_lang : pystr) (max_tokens : Z) (text : pystr) :
  (forall c : N, fits tokenizer source_lang max_tokens [c] = true) ->
  max_tokens - 50 < value (get_token_count tokenizer text source_lang) ->
  exists chunks,
    split_text_into_chunks tokenizer source_lang max_tokens (length text) text
    = Some chunks
    /\ Forall (fun chunk => chunk <> []) chunks.
Proof.
  intros H1 Hover. unfold split_text_into_chunks, le_int, safe_max_tokens.
  apply Z.leb_gt in Hover. rewrite Hover.
  destruct (split_loop_terminates tokenizer source_lang max_tokens
              (length text)) with (remaining := Py.strip text)
                                  (chunks := @nil pystr) as [result Hres].
  - intros remaining Hr. right.
    destruct remaining as [|c t]; [congruence|]. rewrite upto_one. apply H1.
  - apply PyFacts.strip_length.
  - exists result. split; [exact Hres|].
    apply (split_loop_invariant tokenizer source_lang max_tokens
             (Forall (fun chunk => chunk <> []))) with (3 := Hres).
    + intros r cs _. apply iteration_nonempty. exact H1.
    + constructor.
Qed.

Lemma chunks_are_nonempty_witness :
  exists chunks,
    split_text_into_chunks (Some one_per_char) (Py.lit "eng_Latn") 54 16
      (Py.lit " One. Two three ") = Some chunks
    /\ Forall (fun chunk => chunk <> []) chunks.
Proof.
  apply (chunks_are_nonempty (Some one_per_char) (Py.lit "eng_Latn") 54
           (Py.lit " One. Two three ")).
  - intros c. reflexivity.
  - vm_compute. reflexivity.
Defined.

(** X5.  With a positive safe budget, a text that is not blank gives at
    least one chunk. *)
Theorem chunk_list_nonempty (tokenizer : option Tokenizer)
    (source_lang : pystr) (max_tokens : Z) (text : pystr) :
  1 <= max_tokens - 50 ->
  Py.strip text <> [] ->
  exists chunks,
    split_text_into_chunks tokenizer source_lang max_tokens (length text) text
    = Some chunks
    /\ chunks <> [].
Proof.
  intros Hsafe Hne. unfold split_text_into_chunks.
  destruct (le_int _ _); [exists [text]; split; [reflexivity | discriminate]|].
  assert (Hcut : forall remaining : pystr, remaining <> [] ->
                   can_cut tokenizer source_lang max_tokens remaining)
    by (intros; left; exact Hsafe).
  destruct (split_loop_terminates tokenizer source_lang max_tokens
              (length text) Hcut (Py.strip text) [] (PyFacts.strip_length text))
    as [result Hres].
  exists result. split; [exact Hres|].
  pose proof (PyFacts.strip_length text) as Hlen.
  destruct (Py.strip text) as [|c t] eqn:Es; [congruence|].
  destruct (length text) as [|f]; [simpl in Hlen; lia|].
  cbn [split_loop] in Hres.
  destruct (first_pass_appends tokenizer source_lang max_tokens (c :: t) [])
    as [chunk Hchunk].
  - discriminate.
  - pose proof (TrimFacts.strip_no_lead text) as Hl. rewrite Es in Hl. exact Hl.
  - apply Hcut. discriminate.
  - destruct (iteration tokenizer source_lang max_tokens (c :: t) []) as [r cs].
    cbn [snd] in Hchunk. subst cs.
    destruct (split_loop_grows tokenizer source_lang max_tokens _ _ _ _ Hres)
      as [tail ->].
    simpl. discriminate.
Qed.

Lemma chunk_list_nonempty_witness :
  exists chunks,
    split_text_into_chunks (Some two_per_char) (Py.lit "eng_Latn") 51 4
      (Py.lit "abcd") = Some chunks
    /\ chunks <> [].
Proof.
  apply (chunk_list_nonempty (Some two_per_char) (Py.lit "eng_Latn") 51
           (Py.lit "abcd")).
  - lia.
  - vm_compute. discriminate.
Defined.

(** X6.  For every tokenizer, the non-whitespace characters of the chunks,
    read in chunk order, are obtained from those of the text by deleting
    characters: a chunk never repeats text and chunks never change the
    order of the text. *)
Theorem chunks_never_duplicate (tokenizer : option Tokenizer)
    (source_lang : pystr) (max_tokens : Z) (fuel : nat) (text : pystr)
    (chunks : list pystr) :
  split_text_into_chunks tokenizer source_lang max_tokens fuel text
  = Some chunks ->
  subseq (non_whitespace (concat chunks)) (non_whitespace text).
Proof.
  unfold split_text_into_chunks. destruct (le_int _ _).
  - intros [= <-]. cbn [concat]. rewrite app_nil_r.
    apply SubseqFacts.subseq_refl.
  - intros H.
    destruct (split_loop_subseq tokenizer source_lang max_tokens _ _ _ _ H)
      as [tail [-> Hs]].
    rewrite PyFacts.non_whitespace_strip in Hs. exact Hs.
Qed.

Lemma chunks_never_duplicate_witness :
  subseq (non_whitespace (concat [Py.lit "a"; Py.lit "c"]))
    (non_whitespace (Py.lit "abcd")).
Proof.
  apply (chunks_never_duplicate (Some two_per_char) (Py.lit "eng_Latn") 51 4
           (Py.lit "abcd")).
  vm_compute. reflexivity.
Defined.

(** ** Coverage when the oracle is monotone *)

Module IndexFacts.

Lemma slice_length (s : pystr) (a b : Z) :
  0 <= a <= b -> Z.of_nat (length (Py.slice s a b)) <= b - a.
Proof.
  intros H. unfold Py.slice. rewrite length_firstn, length_skipn.
  rewrite !PyFacts.clamp_nonneg by lia. unfold Py.len. lia.
Qed.

Lemma rfind_scan_bound (sub s : pystr) (lo k : nat) :
  Py.rfind_scan sub s lo k = -1
  \/ Z.of_nat lo <= Py.rfind_scan sub s lo k < Z.of_nat (lo + k).
Proof.
  induction k as [|k IH]; [left; reflexivity|].
  cbn [Py.rfind_scan]. destruct (Py.startswith _ _); [right; lia|].
  destruct IH as [IH | IH]; [left; exact IH | right; lia].
Qed.

(** [rfind] answers -1 or an index inside the searched window. *)
Lemma rfind_bound (sub s : pystr) (start stop : Z) :
  let r := Py.rfind sub s start stop in
  r = -1
  \/ (Z.of_nat (Py.clamp (Py.len s) start) <= r
      /\ r + Py.len sub <= Z.of_nat (Py.clamp (Py.len s) stop)).
Proof.
  unfold Py.rfind.
  destruct (rfind_scan_bound sub s (Py.clamp (Py.len s) start)
              (S (Py.clamp (Py.len s) stop) - length sub
               - Py.clamp (Py.len s) start)) as [H | H];
    [left; exact H | right]. unfold Py.len in *. lia.
Qed.

Lemma upto_upto (s : pystr) (j k : Z) :
  0 <= j <= k -> Py.upto (Py.upto s k) j = Py.upto s j.
Proof.
  intros H. unfold Py.upto at 1 3. unfold Py.upto at 2.
  rewrite firstn_firstn. f_equal.
  unfold Py.len, Py.upto. rewrite length_firstn.
  rewrite !PyFacts.clamp_nonneg by lia. unfold Py.len. lia.
Qed.

End IndexFacts.

Section MonotoneOracle.

Variable tokenizer : option Tokenizer.
Variable source_lang : pystr.
Variable max_tokens : Z.

#[local] Abbreviation count_ := (fun s => value (get_token_count tokenizer s source_lang)).
#[local] Abbreviation fits_m := (fits tokenizer source_lang max_tokens).
#[local] Abbreviation cut_m := (cut tokenizer source_lang max_tokens).
#[local] Abbreviation split_loop_m := (split_loop tokenizer source_lang max_tokens).

(** A single character fits; trimming and taking a prefix never add
    tokens. *)
Hypothesis one_char_fits : forall c : N, fits_m [c] = true.
Hypothesis strip_no_more : forall s : pystr, count_ (Py.strip s) <= count_ s.
Hypothesis prefix_no_more :
  forall (s : pystr) (k : Z), count_ (Py.upto s k) <= count_ s.

Lemma scan_back_le (search_text : pystr) (search_start : Z) (n : nat) :
  scan_back search_text search_start n <= search_start + Z.of_nat n
  \/ scan_back search_text search_start n = -1.
Proof.
  induction n as [|n IH]; [right; reflexivity|].
  cbn [scan_back]. destruct (_ && _); [left; lia|].
  destruct IH as [IH | IH]; [left; lia | right; exact IH].
Qed.

Lemma shorter_prefix_fits (s : pystr) (j k : Z) :
  0 <= j <= k -> fits_m (Py.upto s k) = true ->
  fits_m (Py.strip (Py.upto s j)) = true.
Proof.
  intros H Hf. unfold fits, le_int in *. rewrite Z.leb_le in *.
  pose proof (strip_no_more (Py.upto s j)).
  pose proof (prefix_no_more (Py.upto s k) j) as Hp.
  rewrite (IndexFacts.upto_upto s j k H) in Hp. lia.
Qed.

Lemma cut_fitting_fits (remaining : pystr) (best_break : Z) :
  1 <= best_break ->
  fits_m (Py.upto remaining best_break) = true ->
  fits_m (fst (cut_fitting source_lang remaining
                 (Py.upto remaining best_break) best_break)) = true.
Proof.
  intros Hb Hf. unfold cut_fitting.
  set (search_start := Z.max 0 (best_break - best_break / 5)).
  assert (Hss : 0 <= search_start <= best_break).
  { pose proof (Z.div_pos best_break 5 ltac:(lia) ltac:(lia)). lia. }
  set (search_text := Py.slice remaining search_start best_break).
  pose proof (IndexFacts.slice_length remaining search_start best_break Hss)
    as Hlen. fold search_text in Hlen.
  destruct (search_start <? _) eqn:E1.
  { apply Z.ltb_lt in E1. cbn [fst].
    apply (shorter_prefix_fits remaining _ best_break); [|exact Hf].
    destruct (scan_back_le search_text search_start (length search_text)); lia. }
  destruct (negb _).
  - destruct (4 * search_start <? _) eqn:E2; cbn [fst].
    + apply Z.ltb_lt in E2.
      apply (shorter_prefix_fits remaining _ best_break); [|exact Hf].
      pose proof (IndexFacts.rfind_bound (Py.lit " ")
                    (Py.upto remaining best_break) search_start
                    (Py.len (Py.upto remaining best_break))) as Hr.
      cbv zeta in Hr.
      pose proof (PyFacts.upto_length remaining best_break ltac:(lia)) as Hu.
      pose proof (PyFacts.clamp_le (Py.len (Py.upto remaining best_break))
                    (Py.len (Py.upto remaining best_break))
                    (PyFacts.len_nonneg _)) as Hc.
      change (Py.len (Py.lit " ")) with 1 in Hr.
      unfold Py.len in *. lia.
    + unfold fits, le_int in *. rewrite Z.leb_le in *.
      pose proof (strip_no_more (Py.upto remaining best_break)). lia.
  - cbn [fst]. unfold fits, le_int in *. rewrite Z.leb_le in *.
    pose proof (strip_no_more (Py.upto remaining best_break)). lia.
Qed.

(** Under such an oracle the chunk of every pass fits as it is cut. *)
Lemma cut_fits (remaining : pystr) :
  remaining <> [] -> fits_m (fst (cut_m remaining)) = true.
Proof.
  intros Hr.
  assert (H1 : fits_m (Py.upto remaining 1) = true).
  { destruct remaining as [|c t]; [congruence|]. rewrite upto_one.
    apply one_char_fits. }
  destruct (binary_search_finds tokenizer source_lang max_tokens remaining Hr H1)
    as (Hb & Hc & Hf & Ht).
  unfold cut.
  destruct (binary_search tokenizer source_lang max_tokens remaining)
    as [chunk_text best_break].
  cbn [fst snd] in *.
  assert (Hb' : (0 <? best_break) = true) by (apply Z.ltb_lt; lia).
  rewrite Ht, Hb'. cbn [andb]. subst chunk_text.
  apply cut_fitting_fits; assumption.
Qed.

Lemma split_loop_covers (fuel : nat) :
  forall remaining chunks result,
    split_loop_m fuel remaining chunks = Some result ->
    non_whitespace (concat result)
    = non_whitespace (concat chunks) ++ non_whitespace remaining.
Proof.
  induction fuel as [|f IH]; intros remaining chunks result H.
  - destruct remaining; [|discriminate]. injection H as <-.
    symmetry. apply app_nil_r.
  - destruct remaining as [|c t]; [injection H as <-; symmetry; apply app_nil_r|].
    cbn [split_loop] in H.
    pose proof (iteration_covers tokenizer source_lang max_tokens (c :: t) chunks
                  (cut_fits (c :: t) ltac:(discriminate))) as Hi.
    destruct (iteration tokenizer source_lang max_tokens (c :: t) chunks)
      as [r cs].
    cbn [fst snd] in Hi. rewrite (IH _ _ _ H). exact Hi.
Qed.

(** The chunker under a monotone oracle: it returns, loses nothing and
    stays within the budget. *)
Lemma split_well_behaved (text : pystr) :
  exists chunks,
    split_text_into_chunks tokenizer source_lang max_tokens (length text) text
    = Some chunks
    /\ non_whitespace (concat chunks) = non_whitespace text
    /\ Forall (fun chunk => fits_m chunk = true) chunks.
Proof.
  unfold split_text_into_chunks.
  destruct (le_int _ _) eqn:Ele.
  - exists [text]. split; [reflexivity|]. split.
    + cbn [concat]. rewrite app_nil_r. reflexivity.
    + constructor; [exact Ele | constructor].
  - destruct (split_loop_terminates tokenizer source_lang max_tokens
                (length text)) with (remaining := Py.strip text)
                                    (chunks := @nil pystr) as [result Hres].
    + intros remaining Hr. right.
      destruct remaining as [|c t]; [congruence|]. rewrite upto_one.
      apply one_char_fits.
    + apply PyFacts.strip_length.
    + exists result. split; [exact Hres|]. split.
      * rewrite (split_loop_covers _ _ _ _ Hres). cbn [concat non_whitespace filter app].
        apply PyFacts.non_whitespace_strip.
      * apply (split_loop_fits tokenizer source_lang max_tokens one_char_fits
                 strip_no_more _ _ _ _ (Forall_nil _) Hres).
Qed.

End MonotoneOracle.

(** X7.  Under an oracle for which a single character fits and neither
    trimming nor taking a prefix adds tokens, no chunk ever needs to be
    reduced, and the chunks hold exactly the non-whitespace characters of
    the text, in order: here the chunker loses nothing. *)
Theorem coverage_with_monotone_oracle (tokenizer : option Tokenizer)
    (source_lang : pystr) (max_tokens : Z) (text : pystr) :
  (forall c : N, fits tokenizer source_lang max_tokens [c] = true) ->
  (forall s : pystr,
      value (get_token_count tokenizer (Py.strip s) source_lang)
      <= value (get_token_count tokenizer s source_lang)) ->
  (forall (s : pystr) (k : Z),
      value (get_token_count tokenizer (Py.upto s k) source_lang)
      <= value (get_token_count tokenizer s source_lang)) ->
  exists chunks,
    split_text_into_chunks tokenizer source_lang max_tokens (length text) text
    = Some chunks
    /\ non_whitespace (concat chunks) = non_whitespace text.
Proof.
  intros H1 H2 H3.
  destruct (split_well_behaved tokenizer source_lang max_tokens H1 H2 H3 text)
    as [chunks (Hs & Hc & _)].
  exists chunks. split; assumption.
Qed.

Lemma upto_length_le (s : pystr) (k : Z) :
  (length (Py.upto s k) <= length s)%nat.
Proof. unfold Py.upto. rewrite length_firstn. lia. Qed.

Lemma coverage_with_monotone_oracle_witness :
  exists chunks,
    split_text_into_chunks (Some one_per_char) (Py.lit "eng_Latn") 53 7
      (Py.lit "ab cdef") = Some chunks
    /\ non_whitespace (concat chunks) = non_whitespace (Py.lit "ab cdef").
Proof.
  apply (coverage_with_monotone_oracle (Some one_per_char) (Py.lit "eng_Latn")
           53 (Py.lit "ab cdef")).
  - intros c. reflexivity.
  - intros s. simpl. rewrite !length_map.
    pose proof (PyFacts.strip_length s). lia.
  - intros s k. simpl. rewrite !length_map.
    pose proof (upto_length_le s k). lia.
Defined.

(** ** Chunking on the fallback estimate *)

Lemma fallback_count_mono (a b source_lang : pystr) :
  (length a <= length b)%nat ->
  value (fallback_count a source_lang) <= value (fallback_count b source_lang).
Proof.
  intros H. unfold fallback_count, Py.len.
  destruct (_ || _); cbn [value]; apply Z.div_le_mono; lia.
Qed.

(** What a fitting fallback estimate says about the length. *)
Lemma fallback_count_length (s source_lang : pystr) (n : Z) :
  0 <= n -> value (fallback_count s source_lang) <= n ->
  Py.len s <= 4 * n + 3.
Proof.
  intros Hn. unfold fallback_count. pose proof (PyFacts.len_nonneg s) as Hl.
  destruct (_ || _); cbn [value]; intros H.
  - pose proof (Z.div_mod (2 * Py.len s) 5 ltac:(lia)).
    pose proof (Z.mod_pos_bound (2 * Py.len s) 5 ltac:(lia)). lia.
  - pose proof (Z.div_mod (Py.len s) 4 ltac:(lia)).
    pose proof (Z.mod_pos_bound (Py.len s) 4 ltac:(lia)). lia.
Qed.

(** X8.  When the tokenizer is unavailable, so that every count is the
    character estimate of the [except] branch, the chunker still returns for
    every text and every budget [max_tokens >= 50], its chunks hold exactly
    the non-whitespace characters of the text, and no chunk is longer than
    [4 * (max_tokens - 50) + 3] characters. *)
Theorem chunking_without_tokenizer (tokenizer : option Tokenizer)
    (source_lang : pystr) (max_tokens : Z) (text : pystr) :
  (forall s, get_token_count tokenizer s source_lang
             = fallback_count s source_lang) ->
  0 <= max_tokens - 50 ->
  exists chunks,
    split_text_into_chunks tokenizer source_lang max_tokens (length text) text
    = Some chunks
    /\ non_whitespace (concat chunks) = non_whitespace text
    /\ Forall (fun chunk => Py.len chunk <= 4 * (max_tokens - 50) + 3) chunks.
Proof.
  intros Hfb Hsafe.
  destruct (split_well_behaved tokenizer source_lang max_tokens) with (text := text)
    as [chunks (Hs & Hc & Hf)].
  - intros c. unfold fits, le_int, safe_max_tokens. rewrite Hfb. apply Z.leb_le.
    unfold fallback_count. change (Py.len [c]) with 1.
    destruct (_ || _); cbn [value];
      [change (2 * 1 / 5) with 0 | change (1 / 4) with 0]; lia.
  - intros s. rewrite !Hfb. apply fallback_count_mono, PyFacts.strip_length.
  - intros s k. rewrite !Hfb. apply fallback_count_mono, upto_length_le.
  - exists chunks. repeat split; try assumption.
    revert Hf. apply Forall_impl. intros chunk Hfit.
    unfold fits, le_int, safe_max_tokens in Hfit. rewrite Hfb in Hfit.
    apply Z.leb_le in Hfit.
    apply (fallback_count_length chunk source_lang); assumption.
Qed.

Lemma chunking_without_tokenizer_witness :
  exists chunks,
    split_text_into_chunks None (Py.lit "khm_Khmr") 52 12
      (Py.lit "abcdefghijkl") = Some chunks
    /\ non_whitespace (concat chunks) = non_whitespace (Py.lit "abcdefghijkl")
    /\ Forall (fun chunk => Py.len chunk <= 4 * (52 - 50) + 3) chunks.
Proof.
  apply (chunking_without_tokenizer None (Py.lit "khm_Khmr") 52
           (Py.lit "abcdefghijkl")).
  - intros s. reflexivity.
  - lia.
Defined.

(** ** The handler as a whole *)

(** The handler's threshold lies above the chunker's, so a text the handler
    sends to the chunker is never returned in one piece. *)
Lemma handler_over_chunker (tok : Tokenizer) (text source_lang : pystr) :
  gt_int (get_token_count (Some tok) text source_lang) handler_safe_max_tokens
  = true ->
  le_int (get_token_count (Some tok) text source_lang)
    (safe_max_tokens handler_safe_max_tokens) = false.
Proof.
  unfold gt_int, le_int. rewrite Z.ltb_lt, Z.leb_gt.
  change handler_safe_max_tokens with 974.
  change (safe_max_tokens 974) with 924. lia.
Qed.

(** X9.  Whenever the handler answers with a response, the response
    carries the request's [source_lang] and [target_lang] unchanged; in
    particular the request's [source_lang] was a string. *)
Theorem response_echoes_languages (response_error : pystr) (g : Globals)
    (fuel : nat) (request : TranslationRequest.t)
    (response : TranslationResponse.t) :
  translate response_error g fuel request = Some (Response response) ->
  Some (TranslationResponse.source_lang response)
  = TranslationRequest.source_lang request
  /\ TranslationResponse.target_lang response
     = TranslationRequest.target_lang request.
Proof.
  unfold translate.
  destruct (model g) as [m|]; [|discriminate].
  destruct (tokenizer g) as [tok|]; [|discriminate].
  destruct (text_too_long request); [discriminate|].
  destruct (negb _); [discriminate|].
  unfold translate_loaded.
  destruct (TranslationRequest.source_lang request) as [source_lang|].
  - destruct (gt_int _ _).
    + destruct (split_text_into_chunks _ _ _ _ _); [|discriminate].
      intros [= <-]. split; reflexivity.
    + destruct (translate_chunk _ _ _ _ _) as [[e | e] | t]; try discriminate.
      intros [= <-]. split; reflexivity.
  - destruct (translate_none_handled response_error m tok fuel
                (TranslationRequest.text request)
                (TranslationRequest.target_lang request)) as [-> | [e ->]];
      [discriminate|].
    destruct (handled_status e) as (code & detail & -> & _). discriminate.
Qed.

Lemma response_echoes_languages_witness :
  Some (TranslationResponse.source_lang
          (TranslationResponse.mk (Py.lit "hello") (Py.lit "khm_Khmr")
             (Py.lit "eng_Latn")))
  = Some (Py.lit "khm_Khmr")
  /\ TranslationResponse.target_lang
       (TranslationResponse.mk (Py.lit "hello") (Py.lit "khm_Khmr") (Py.lit "eng_Latn"))
     = Py.lit "eng_Latn".
Proof.
  apply (response_echoes_languages sample_response_error
           (mkGlobals (Some (failing_on [])) (Some one_per_char)) 0
           (TranslationRequest.mk (Py.lit "hello") (Some (Py.lit "khm_Khmr"))
              (Py.lit "eng_Latn"))).
  vm_compute. reflexivity.
Defined.

(** X10.  The handler answers every request once the fuel covers the
    length of the text: with a response, or with an error whose status is
    503, 400 or 500. *)
Theorem handler_always_answers (response_error : pystr) (g : Globals)
    (fuel : nat) (request : TranslationRequest.t) :
  (length (TranslationRequest.text request) <= fuel)%nat ->
  exists outcome,
    translate response_error g fuel request = Some outcome
    /\ match outcome with
       | Response _ => True
       | HTTPException status_code _ =>
           status_code = 503 \/ status_code = 400 \/ status_code = 500
       end.
Proof.
  intros Hfuel. unfold translate.
  destruct (model g) as [m|]; [|eexists; split; [reflexivity | simpl; auto]].
  destruct (tokenizer g) as [tok|]; [|eexists; split; [reflexivity | simpl; auto]].
  destruct (text_too_long request); [eexists; split; [reflexivity | simpl; auto]|].
  destruct (negb _); [eexists; split; [reflexivity | simpl; auto]|].
  destruct (TranslationRequest.source_lang request) as [source_lang|] eqn:Elang.
  - destruct (gt_int (get_token_count (Some tok)
                        (TranslationRequest.text request) source_lang)
                handler_safe_max_tokens) eqn:Egt.
    + destruct (chunked_path_responds response_error m tok fuel request
                  source_lang Elang Egt Hfuel) as [chunks [_ Hr]].
      rewrite Hr. eexists. split; [reflexivity | exact I].
    + unfold translate_loaded. rewrite Elang, Egt.
      destruct (translate_chunk _ _ _ _ _) as [[e | e] | t];
        eexists; (split; [reflexivity | simpl; auto]).
  - unfold translate_loaded. rewrite Elang.
    destruct (translate_none_answers response_error m tok fuel
                (TranslationRequest.text request)
                (TranslationRequest.target_lang request) Hfuel) as [e ->].
    destruct (handled_status e) as (code & detail & -> & Hc & _).
    eexists. split; [reflexivity|]. destruct Hc; auto.
Qed.

Lemma handler_always_answers_witness :
  exists outcome,
    translate sample_response_error
      (mkGlobals (Some (failing_on (Py.lit "hello"))) (Some one_per_char))
      5 (TranslationRequest.mk (Py.lit "hello") None (Py.lit "eng_Latn"))
    = Some outcome
    /\ match outcome with
       | Response _ => True
       | HTTPException status_code _ =>
           status_code = 503 \/ status_code = 400 \/ status_code = 500
       end.
Proof.
  apply (handler_always_answers sample_response_error
           (mkGlobals (Some (failing_on (Py.lit "hello"))) (Some one_per_char))
           5 (TranslationRequest.mk (Py.lit "hello") None (Py.lit "eng_Latn"))).
  simpl. lia.
Defined.



(** X12.  On the chunked path of a valid request whose [source_lang] is a
    string, the chunker's own short-circuit cannot fire (the handler's
    threshold 974 lies above the chunker's 924): the chunks the chunker
    returns are those of its loop run on the trimmed text, there is at
    least one and at most [len(text)] of them, each is trimmed, and the
    handler answers with the reassembly of their translations. *)
Theorem handler_chunks (response_error : pystr) (m : Model) (tok : Tokenizer)
    (fuel : nat) (request : TranslationRequest.t) (source_lang : pystr) :
  let text := TranslationRequest.text request in
  let target_lang := TranslationRequest.target_lang request in
  TranslationRequest.source_lang request = Some source_lang ->
  Py.len text <= MAX_TEXT_LENGTH ->
  Py.strip text <> [] ->
  MAX_INPUT_TOKENS - 50 < value (get_token_count (Some tok) text source_lang) ->
  (length text <= fuel)%nat ->
  exists chunks,
    split_text_into_chunks (Some tok) source_lang (MAX_INPUT_TOKENS - 50)
      fuel text = Some chunks
    /\ split_loop (Some tok) source_lang (MAX_INPUT_TOKENS - 50) fuel
         (Py.strip text) [] = Some chunks
    /\ translate response_error (mkGlobals (Some m) (Some tok)) fuel request
       = Some (Response (TranslationResponse.mk
                           (reassemble
                              (translate_chunks m tok (Some source_lang)
                                 target_lang chunks)
                              text)
                           source_lang target_lang))
    /\ chunks <> []
    /\ (length chunks <= length text)%nat
    /\ Forall (fun chunk => Py.strip chunk = chunk) chunks.
Proof.
  intros text target_lang Hlang Hlen Hne Hcount Hfuel.
  change (MAX_INPUT_TOKENS - 50) with handler_safe_max_tokens.
  assert (Hgt : gt_int (get_token_count (Some tok) text source_lang)
                  handler_safe_max_tokens = true)
    by (apply Z.ltb_lt; exact Hcount).
  destruct (chunked_path_responds response_error m tok fuel request
              source_lang Hlang Hgt Hfuel) as [chunks [Hs Hr]].
  fold text target_lang in Hs, Hr.
  assert (Hloop : split_loop (Some tok) source_lang handler_safe_max_tokens
                    fuel (Py.strip text) [] = Some chunks).
  { unfold split_text_into_chunks in Hs.
    rewrite (handler_over_chunker tok text source_lang Hgt) in Hs. exact Hs. }
  exists chunks.
  split; [exact Hs|]. split; [exact Hloop|]. split; [|split; [|split]].
  - unfold translate. cbn [model tokenizer].
    unfold text_too_long. fold text.
    apply Z.ltb_ge in Hlen. rewrite Hlen.
    destruct (Py.strip text) eqn:Es; [congruence|]. cbn [Py.truthy negb].
    exact Hr.
  - pose proof (PyFacts.strip_length text) as Hl.
    destruct (Py.strip text) as [|c t] eqn:Es; [congruence|].
    destruct fuel as [|f]; [simpl in Hl; lia|].
    cbn [split_loop] in Hloop.
    destruct (first_pass_appends (Some tok) source_lang handler_safe_max_tokens
                (c :: t) []) as [chunk Hchunk].
    + discriminate.
    + pose proof (TrimFacts.strip_no_lead text) as Hnl. rewrite Es in Hnl.
      exact Hnl.
    + left. vm_compute. discriminate.
    + destruct (iteration (Some tok) source_lang handler_safe_max_tokens
                  (c :: t) []) as [r cs].
      cbn [snd] in Hchunk. subst cs.
      destruct (split_loop_grows _ _ _ _ _ _ _ Hloop) as [tail ->].
      simpl. discriminate.
  - pose proof (split_loop_bound (Some tok) source_lang handler_safe_max_tokens
                  fuel) as Hb.
    specialize (Hb ltac:(intros; left; vm_compute; discriminate) _ _ _ Hloop).
    pose proof (PyFacts.strip_length text). simpl in Hb. lia.
  - apply (split_loop_trimmed _ _ _ _ _ _ _ (Forall_nil _) Hloop).
Qed.

Lemma handler_chunks_witness :
  exists chunks,
    split_text_into_chunks (Some one_per_char) (Py.lit "khm_Khmr")
      (MAX_INPUT_TOKENS - 50) (Z.to_nat 980) (letters 980) = Some chunks
    /\ split_loop (Some one_per_char) (Py.lit "khm_Khmr")
         (MAX_INPUT_TOKENS - 50) (Z.to_nat 980) (Py.strip (letters 980)) []
       = Some chunks
    /\ translate sample_response_error
         (mkGlobals (Some (failing_on [])) (Some one_per_char))
         (Z.to_nat 980)
         (TranslationRequest.mk (letters 980) (Some (Py.lit "khm_Khmr"))
            (Py.lit "eng_Latn"))
       = Some (Response (TranslationResponse.mk
                           (reassemble
                              (translate_chunks (failing_on []) one_per_char
                                 (Some (Py.lit "khm_Khmr")) (Py.lit "eng_Latn")
                                 chunks)
                              (letters 980))
                           (Py.lit "khm_Khmr") (Py.lit "eng_Latn")))
    /\ chunks <> []
    /\ (length chunks <= length (letters 980))%nat
    /\ Forall (fun chunk => Py.strip chunk = chunk) chunks.
Proof.
  apply (handler_chunks sample_response_error (failing_on []) one_per_char
           (Z.to_nat 980)
           (TranslationRequest.mk (letters 980) (Some (Py.lit "khm_Khmr"))
              (Py.lit "eng_Latn")) (Py.lit "khm_Khmr")).
  - reflexivity.
  - vm_compute. discriminate.
  - vm_compute. discriminate.
  - vm_compute. reflexivity.
  - apply Nat.leb_le. vm_compute. reflexivity.
Defined.

(** X19.  A request whose [source_lang] is [None] is never answered with a
    response: once the model is loaded and the text has passed the two
    checks, the handler answers 500, or 400 when the collaborator raises a
    [KeyError] on a text sent in one piece; it does so for every fuel that
    covers the length of the text. *)
Theorem null_source_lang_is_refused (response_error : pystr) (m : Model)
    (tok : Tokenizer) (fuel : nat) (request : TranslationRequest.t) :
  TranslationRequest.source_lang request = None ->
  text_too_long request = false ->
  Py.strip (TranslationRequest.text request) <> [] ->
  (length (TranslationRequest.text request) <= fuel)%nat ->
  exists status_code detail,
    translate response_error (mkGlobals (Some m) (Some tok)) fuel request
    = Some (HTTPException status_code detail)
    /\ (status_code = 500
        \/ (status_code = 400
            /\ exists e,
                 translate_chunk m tok (TranslationRequest.text request) None
                   (TranslationRequest.target_lang request)
                 = inl (KeyError e)
                 /\ detail = detail_invalid_language e)).
Proof.
  intros Hlang Hlen Hne Hfuel.
  unfold translate. cbn [model tokenizer]. rewrite Hlen.
  destruct (Py.strip (TranslationRequest.text request)) as [|c rest];
    [congruence|].
  cbn [Py.truthy negb]. unfold translate_loaded. rewrite Hlang.
  set (text := TranslationRequest.text request) in *.
  set (target_lang := TranslationRequest.target_lang request).
  unfold translate_none.
  destruct (get_token_count_none (Some tok) text) as [e | count] eqn:Ec.
  { apply count_none_raises in Ec. subst e.
    do 2 eexists. split; [reflexivity | left; reflexivity]. }
  destruct (gt_int count _).
  - destruct (split_none_returns (Some tok) handler_safe_max_tokens fuel text
                Hfuel) as [result Hres].
    rewrite Hres. destruct result as [e | chunks].
    + apply split_none_raises in Hres. subst e.
      do 2 eexists. split; [reflexivity | left; reflexivity].
    + destruct (translate_loop_none m tok target_lang 0 chunks [])
        as [e | translated_chunks] eqn:El.
      * apply translate_loop_none_raises in El. subst e.
        do 2 eexists. split; [reflexivity | left; reflexivity].
      * do 2 eexists. split; [reflexivity | left; reflexivity].
  - destruct (translate_chunk m tok text None target_lang) as [[e | e] | t].
    + do 2 eexists. split; [reflexivity|]. right. split; [reflexivity|].
      exists e. split; reflexivity.
    + do 2 eexists. split; [reflexivity | left; reflexivity].
    + do 2 eexists. split; [reflexivity | left; reflexivity].
Qed.

Lemma null_source_lang_is_refused_witness :
  exists status_code detail,
    translate sample_response_error
      (mkGlobals (Some (failing_on [])) (Some one_per_char)) 5
      (TranslationRequest.mk (Py.lit "hello") None (Py.lit "eng_Latn"))
    = Some (HTTPException status_code detail)
    /\ (status_code = 500
        \/ (status_code = 400
            /\ exists e,
                 translate_chunk (failing_on []) one_per_char (Py.lit "hello")
                   None (Py.lit "eng_Latn")
                 = inl (KeyError e)
                 /\ detail = detail_invalid_language e)).
Proof.
  apply (null_source_lang_is_refused sample_response_error (failing_on [])
           one_per_char 5
           (TranslationRequest.mk (Py.lit "hello") None (Py.lit "eng_Latn"))).
  - reflexivity.
  - vm_compute. reflexivity.
  - vm_compute. discriminate.
  - simpl. lia.
Defined.

(** ** health_check *)

(** X13.  The health check and the handler agree on readiness: the check
    raises 503 exactly when the handler answers every request with 503, and
    a healthy answer always reports both the model and the tokenizer as
    loaded. *)
Theorem health_matches_handler (response_error : pystr) (g : Globals) :
  (forall fuel request,
      (exists detail, health_check g = HealthException 503 detail)
      <-> (exists detail,
              translate response_error g fuel request
              = Some (HTTPException 503 detail)))
  /\ (forall h,
        health_check g = HealthOk h ->
        status h = Py.lit "healthy"
        /\ model_loaded h = true /\ tokenizer_loaded h = true).
Proof.
  split.
  - intros fuel request. unfold health_check, translate.
    destruct (model g) as [m|]; [destruct (tokenizer g) as [tok|]|];
      cbn [is_none orb].
    + split; [intros [d Hd]; discriminate|].
      intros [d Hd]. exfalso. revert Hd.
      destruct (text_too_long request); [discriminate|].
      destruct (negb _); [discriminate|].
      unfold translate_loaded.
      destruct (TranslationRequest.source_lang request) as [source_lang|].
      * destruct (gt_int _ _).
        -- destruct (split_text_into_chunks _ _ _ _ _); discriminate.
        -- destruct (translate_chunk _ _ _ _ _) as [[e | e] | t];
             discriminate.
      * destruct (translate_none_handled response_error m tok fuel
                    (TranslationRequest.text request)
                    (TranslationRequest.target_lang request))
          as [-> | [e ->]]; [discriminate|].
        destruct (handled_status e) as (code & detail & -> & Hc & _).
        intros [= -> _]. destruct Hc; discriminate.
    + split; intros _; eexists; reflexivity.
    + split; intros _; eexists; reflexivity.
  - intros h. unfold health_check.
    destruct (model g), (tokenizer g); cbn [is_none orb negb];
      try discriminate.
    intros [= <-]. repeat split.
Qed.

Lemma health_matches_handler_witness :
  status (mkHealth (Py.lit "healthy") true true) = Py.lit "healthy"
  /\ model_loaded (mkHealth (Py.lit "healthy") true true) = true
  /\ tokenizer_loaded (mkHealth (Py.lit "healthy") true true) = true.
Proof.
  apply (proj2 (health_matches_handler sample_response_error
                  (mkGlobals (Some (failing_on [])) (Some one_per_char)))).
  reflexivity.
Defined.

(** ** Reassembly changes whitespace only *)

Section RestoreFacts.

Variables old new : pystr.

Lemma restore_content (pieces : list pystr) :
  non_whitespace old = non_whitespace new ->
  forall k,
    non_whitespace (restore old new k pieces)
    = non_whitespace (restore old new 0 pieces).
Proof.
  intros Hw. induction pieces as [|p [|q rest] IH]; intros k; try reflexivity.
  destruct k as [|k]; [reflexivity|].
  change (non_whitespace (p ++ new ++ restore old new k (q :: rest))
          = non_whitespace (p ++ old ++ restore old new 0 (q :: rest))).
  rewrite !PyFacts.non_whitespace_app, IH, Hw. reflexivity.
Qed.

Lemma restore_length (pieces : list pystr) :
  (length old <= length new)%nat ->
  forall k,
    (length (restore old new 0 pieces) <= length (restore old new k pieces)
     /\ length (restore old new k pieces)
        <= length (restore old new 0 pieces)
           + k * (length new - length old))%nat.
Proof.
  intros Hl. induction pieces as [|p [|q rest] IH]; intros k;
    try (cbn [restore]; nia).
  destruct k as [|k]; [lia|].
  change (restore old new (S k) (p :: q :: rest))
    with (p ++ new ++ restore old new k (q :: rest)).
  change (restore old new 0 (p :: q :: rest))
    with (p ++ old ++ restore old new 0 (q :: rest)).
  rewrite !length_app. specialize (IH k). nia.
Qed.

End RestoreFacts.

Lemma join_content (sep : pystr) (parts : list pystr) :
  non_whitespace sep = [] ->
  non_whitespace (Py.join sep parts) = non_whitespace (concat parts).
Proof.
  intros Hs. induction parts as [|p [|q rest] IH]; [reflexivity | |].
  - cbn [Py.join concat]. rewrite app_nil_r. reflexivity.
  - change (non_whitespace (p ++ sep ++ Py.join sep (q :: rest))
            = non_whitespace (p ++ concat (q :: rest))).
    rewrite !PyFacts.non_whitespace_app, IH, Hs. reflexivity.
Qed.

(** X14.  Reassembly touches whitespace only: the non-whitespace
    characters of the reassembled text are those of the translated chunks,
    in chunk order, and the text is at least as long as the chunks joined by
    blanks and at most [P - 1] characters longer, [P] the number of
    paragraphs of the original. *)
Theorem reassembly_keeps_content (translated_chunks : list pystr)
    (text : pystr) :
  let joined := Py.join (Py.lit " ") translated_chunks in
  let P := Z.of_nat (length (Py.split double_newline text)) in
  non_whitespace (reassemble translated_chunks text)
  = non_whitespace (concat translated_chunks)
  /\ Py.len joined <= Py.len (reassemble translated_chunks text)
     <= Py.len joined + (P - 1).
Proof.
  intros joined P.
  assert (Hold : Py.lit ". " <> []) by discriminate.
  assert (Hj : non_whitespace joined = non_whitespace (concat translated_chunks))
    by (apply join_content; reflexivity).
  assert (HP : 1 <= P).
  { unfold P, Py.split.
    pose proof (split_go_nonempty double_newline text 0 []) as Hn.
    destruct (Py.split_go double_newline text 0 []); [congruence | simpl length; lia]. }
  unfold reassemble. fold joined.
  destruct (Py.contains double_newline text); [|split; [exact Hj | lia]].
  destruct (1 <? length (Py.split double_newline text))%nat;
    [|split; [exact Hj | lia]].
  unfold Py.replace.
  pose proof (replace_go_restore (Py.lit ". ") (Py.lit "." ++ double_newline)
                Hold joined 0%nat []
                (Z.to_nat (Z.of_nat (length (Py.split double_newline text)) - 1)))
    as Hr.
  cbn [rev app] in Hr. rewrite Hr.
  pose proof (split_go_join (Py.lit ". ") (Py.lit "." ++ double_newline)
                Hold joined 0%nat []) as Hsj.
  cbn [rev app skipn] in Hsj.
  split.
  - rewrite restore_content by reflexivity. rewrite Hsj. exact Hj.
  - pose proof (restore_length (Py.lit ". ") (Py.lit "." ++ double_newline)
                  (Py.split_go (Py.lit ". ") joined 0 [])
                  ltac:(simpl; lia)
                  (Z.to_nat (Z.of_nat (length (Py.split double_newline text)) - 1)))
      as [Hlo Hhi].
    rewrite Hsj in Hlo, Hhi. unfold Py.len, P.
    change (length (Py.lit "." ++ double_newline) - length (Py.lit ". "))%nat
      with 1%nat in Hhi.
    lia.
Qed.

(** ** Where the loop cuts *)

Module CutFacts.

(** The scan returns -1 or the end of the last candidate of the window. *)
Lemma scan_back_spec (search_text : pystr) (search_start : Z) (n : nat) :
  (scan_back search_text search_start n = -1
   /\ forall i, 0 <= i < Z.of_nat n -> sentence_end_at search_text i = false)
  \/ exists i,
       0 <= i < Z.of_nat n
       /\ scan_back search_text search_start n = search_start + i + 1
       /\ sentence_end_at search_text i = true
       /\ forall j, i < j < Z.of_nat n -> sentence_end_at search_text j = false.
Proof.
  induction n as [|n IH].
  - left. split; [reflexivity | intros i Hi; lia].
  - cbn [scan_back].
    change (Py.char_in (Py.item search_text (Z.of_nat n)) sentence_endings
            && ((Z.of_nat n =? Py.len search_text - 1)
                || ((Z.of_nat n + 1 <? Py.len search_text)
                    && Py.isspace (Py.item search_text (Z.of_nat n + 1)))))
      with (sentence_end_at search_text (Z.of_nat n)).
    destruct (sentence_end_at search_text (Z.of_nat n)) eqn:E.
    + right. exists (Z.of_nat n). repeat split; try lia. exact E.
    + destruct IH as [[H0 Hall] | (i & Hi & Hr & He & Hlast)].
      * left. split; [exact H0|]. intros i Hi.
        destruct (Z.eq_dec i (Z.of_nat n)) as [-> | Hne]; [exact E|].
        apply Hall. lia.
      * right. exists i. repeat split; try lia; try assumption.
        intros j Hj.
        destruct (Z.eq_dec j (Z.of_nat n)) as [-> | Hne]; [exact E|].
        apply Hlast. lia.
Qed.

(** A character of a slice is the character of the string at the shifted
    index. *)
Lemma item_slice (s : pystr) (a b i : Z) :
  0 <= a <= b -> b <= Py.len s -> 0 <= i < b - a ->
  Py.item (Py.slice s a b) i = Py.item s (a + i).
Proof.
  intros Ha Hb Hi. unfold Py.item, Py.slice.
  rewrite !PyFacts.clamp_nonneg by lia.
  rewrite nth_firstn, nth_skipn.
  replace (Z.to_nat i <? Z.to_nat (Z.min b (Py.len s))
                         - Z.to_nat (Z.min a (Py.len s)))%nat with true
    by (symmetry; apply Nat.ltb_lt; lia).
  f_equal. lia.
Qed.

Lemma slice_len (s : pystr) (a b : Z) :
  0 <= a <= b -> b <= Py.len s -> Py.len (Py.slice s a b) = b - a.
Proof.
  intros Ha Hb. unfold Py.len, Py.slice in *.
  rewrite length_firstn, length_skipn, !PyFacts.clamp_nonneg by lia.
  unfold Py.len. lia.
Qed.

Lemma rfind_scan_found (sub s : pystr) (lo k : nat) :
  Py.rfind_scan sub s lo k <> -1 ->
  Py.startswith (skipn (Z.to_nat (Py.rfind_scan sub s lo k)) s) sub = true.
Proof.
  induction k as [|k IH]; [intros H; exfalso; apply H; reflexivity|].
  cbn [Py.rfind_scan].
  destruct (Py.startswith (skipn (lo + k) s) sub) eqn:E; [|exact IH].
  intros _. rewrite Nat2Z.id. exact E.
Qed.

Lemma startswith_head (s : pystr) (c : N) :
  Py.startswith s [c] = true -> nth 0 s 0%N = c.
Proof.
  destruct s as [|d t]; [discriminate|]. cbn [Py.startswith nth].
  destruct (N.eqb_spec c d) as [-> | Hne]; [reflexivity | discriminate].
Qed.

End CutFacts.

(** X15.  When the loop cuts at a sentence boundary, the cut index
    [last_sentence_end] lies in the last fifth of the fitting prefix
    ([best_break - best_break // 5 < last_sentence_end <= best_break]), the
    character before the cut is one of the sentence endings, the cut is
    either at [best_break] itself or followed by whitespace, and no later
    position of the window qualifies. *)
Theorem sentence_cut_position (source_lang remaining chunk_text : pystr)
    (best_break : Z) :
  let search_start := Z.max 0 (best_break - best_break / 5) in
  let search_text := Py.slice remaining search_start best_break in
  let last_sentence_end :=
    scan_back search_text search_start (length search_text) in
  1 <= best_break <= Py.len remaining ->
  search_start < last_sentence_end ->
  last_sentence_end <= best_break
  /\ Py.char_in (Py.item remaining (last_sentence_end - 1)) sentence_endings
     = true
  /\ (last_sentence_end = best_break
      \/ Py.isspace (Py.item remaining last_sentence_end) = true)
  /\ (forall i,
         last_sentence_end - search_start <= i < Py.len search_text ->
         sentence_end_at search_text i = false)
  /\ cut_fitting source_lang remaining chunk_text best_break
     = (Py.strip (Py.upto remaining last_sentence_end),
        Py.strip (Py.from remaining last_sentence_end)).
Proof.
  intros search_start search_text last_sentence_end Hb Hlt.
  assert (Hss : 0 <= search_start <= best_break).
  { pose proof (Z.div_pos best_break 5 ltac:(lia) ltac:(lia)).
    unfold search_start. lia. }
  pose proof (CutFacts.slice_len remaining search_start best_break Hss
                ltac:(lia)) as Hlen.
  fold search_text in Hlen.
  destruct (CutFacts.scan_back_spec search_text search_start
              (length search_text))
    as [[H0 _] | (i & Hi & Hr & He & Hlast)];
    [fold last_sentence_end in H0; lia|].
  fold last_sentence_end in Hr.
  change (Z.of_nat (length search_text)) with (Py.len search_text) in Hi, Hlast.
  unfold sentence_end_at in He. apply andb_true_iff in He.
  destruct He as [Hend Hnext].
  unfold search_text in Hend, Hnext.
  rewrite CutFacts.item_slice in Hend by lia.
  repeat split.
  - lia.
  - replace (last_sentence_end - 1) with (search_start + i) by lia. exact Hend.
  - apply orb_true_iff in Hnext. destruct Hnext as [Hn | Hn].
    + left. apply Z.eqb_eq in Hn. fold search_text in Hn. lia.
    + right. apply andb_true_iff in Hn. destruct Hn as [Hn1 Hn2].
      apply Z.ltb_lt in Hn1. fold search_text in Hn1.
      rewrite CutFacts.item_slice in Hn2 by lia.
      replace last_sentence_end with (search_start + (i + 1)) by lia.
      exact Hn2.
  - intros j Hj. apply Hlast. lia.
  - unfold cut_fitting. fold search_start. fold search_text.
    fold last_sentence_end. apply Z.ltb_lt in Hlt. rewrite Hlt. reflexivity.
Qed.

Lemma sentence_cut_position_witness :
  cut_fitting (Py.lit "eng_Latn") (Py.lit "One two three. Four five")
    (Py.lit "One two three. ") 15
  = (Py.lit "One two three.", Py.lit "Four five").
Proof.
  destruct (sentence_cut_position (Py.lit "eng_Latn")
              (Py.lit "One two three. Four five") (Py.lit "One two three. ") 15)
    as (_ & _ & _ & _ & H).
  - vm_compute. split; discriminate.
  - vm_compute. reflexivity.
  - rewrite H. vm_compute. reflexivity.
Defined.

(** X16.  The test [space_pos > search_start * 0.8] of the word-boundary
    fallback never rejects a space that [rfind] found, except one at index
    0: the search already starts at [search_start], so a found space lies
    in the last fifth [search_start .. len(chunk_text) - 1] and the test
    amounts to [space_pos > 0]. *)
Theorem word_boundary_guard (chunk_text : pystr) (search_start : Z) :
  0 <= search_start ->
  let space_pos :=
    Py.rfind (Py.lit " ") chunk_text search_start (Py.len chunk_text) in
  (4 * search_start <? 5 * space_pos) = (0 <? space_pos)
  /\ (space_pos <> -1 ->
      search_start <= space_pos < Py.len chunk_text
      /\ Py.item chunk_text space_pos = 32%N).
Proof.
  intros Hss space_pos.
  pose proof (IndexFacts.rfind_bound (Py.lit " ") chunk_text search_start
                (Py.len chunk_text)) as Hb.
  cbv zeta in Hb. fold space_pos in Hb.
  change (Py.len (Py.lit " ")) with 1 in Hb.
  pose proof (PyFacts.len_nonneg chunk_text) as Hl.
  rewrite !PyFacts.clamp_nonneg in Hb by lia.
  assert (Hrange : space_pos = -1
                   \/ search_start <= space_pos < Py.len chunk_text)
    by (destruct Hb as [Hb | Hb]; [left; exact Hb | right; lia]).
  split.
  - destruct Hrange as [-> | Hr].
    + destruct (4 * search_start <? 5 * -1) eqn:E; [apply Z.ltb_lt in E; lia|].
      reflexivity.
    + destruct (0 <? space_pos) eqn:E.
      * apply Z.ltb_lt in E. apply Z.ltb_lt. lia.
      * apply Z.ltb_ge in E. apply Z.ltb_ge. lia.
  - intros Hne. destruct Hrange as [Hr | Hr]; [congruence|].
    split; [exact Hr|].
    unfold Py.item.
    pose proof (CutFacts.rfind_scan_found (Py.lit " ") chunk_text
                  (Py.clamp (Py.len chunk_text) search_start)
                  (S (Py.clamp (Py.len chunk_text) (Py.len chunk_text))
                   - length (Py.lit " ")
                   - Py.clamp (Py.len chunk_text) search_start)) as Hf.
    change (Py.rfind_scan _ _ _ _) with space_pos in Hf.
    specialize (Hf Hne).
    apply (CutFacts.startswith_head _ 32%N) in Hf.
    rewrite nth_skipn, Nat.add_0_r in Hf. exact Hf.
Qed.

Lemma word_boundary_guard_witness :
  (4 * 8 <? 5 * Py.rfind (Py.lit " ") (Py.lit "alpha beta gamma") 8 16)
  = (0 <? Py.rfind (Py.lit " ") (Py.lit "alpha beta gamma") 8 16).
Proof.
  apply (word_boundary_guard (Py.lit "alpha beta gamma") 8). lia.
Defined.

(** ** A budget of zero *)

Section ZeroBudget.

Variable tokenizer : option Tokenizer.
Variable source_lang : pystr.

(** Every non-empty string costs at least one token. *)
Hypothesis nonempty_costs :
  forall s : pystr, s <> [] -> 1 <= value (get_token_count tokenizer s source_lang).

Lemma nothing_fits (s : pystr) :
  s <> [] -> fits tokenizer source_lang 50 s = false.
Proof.
  intros Hs. unfold fits, le_int, safe_max_tokens. apply Z.leb_gt.
  pose proof (nonempty_costs s Hs). lia.
Qed.

Lemma bsearch_nothing (s : pystr) (fuel : nat) :
  s <> [] ->
  forall low high c b,
    1 <= low -> bsearch tokenizer source_lang 50 s fuel low high c b = (c, b).
Proof.
  intros Hs. induction fuel as [|f IH]; intros low high c b Hl; [reflexivity|].
  cbn [bsearch]. destruct (low <=? high) eqn:E; [|reflexivity].
  apply Z.leb_le in E.
  assert (low <= (low + high) / 2) by (apply Z.div_le_lower_bound; lia).
  rewrite nothing_fits by (apply upto_nonempty; [exact Hs | lia]).
  apply IH. exact Hl.
Qed.

(** With [safe_max_tokens = 0] a pass takes nothing off a trimmed text. *)
Lemma iteration_stalls (remaining : pystr) (chunks : list pystr) :
  remaining <> [] -> trimmed remaining ->
  iteration tokenizer source_lang 50 remaining chunks = (remaining, chunks).
Proof.
  intros Hr Ht. unfold iteration, cut, binary_search.
  rewrite bsearch_nothing by (try assumption; lia).
  cbn [Py.truthy andb]. unfold cut_fallback.
  change (safe_max_tokens 50 * 2) with 0.
  pose proof (PyFacts.len_nonneg remaining) as Hl.
  replace (Z.min (Py.len remaining) 0) with 0 by lia.
  change (Z.to_nat (0 - 1 - Z.max 0 (0 - 500))) with 0%nat.
  cbn [scan_fallback].
  assert (Hrf : Py.rfind (Py.lit " ") remaining 0 0 = -1).
  { unfold Py.rfind. rewrite !PyFacts.clamp_nonneg by lia.
    replace (Z.to_nat (Z.min 0 (Py.len remaining))) with 0%nat by lia.
    reflexivity. }
  assert (Hup : Py.upto remaining 0 = []).
  { unfold Py.upto. rewrite PyFacts.clamp_nonneg by lia.
    replace (Z.to_nat (Z.min 0 (Py.len remaining))) with 0%nat by lia.
    reflexivity. }
  assert (Hfr : Py.from remaining 0 = remaining).
  { unfold Py.from. rewrite PyFacts.clamp_nonneg by lia.
    replace (Z.to_nat (Z.min 0 (Py.len remaining))) with 0%nat by lia.
    reflexivity. }
  rewrite Hrf, Hup, Hfr. cbn [Z.ltb Z.compare].
  change (Py.strip []) with (@nil N). rewrite Ht.
  destruct (negb _); reflexivity.
Qed.

Lemma split_loop_stalls (fuel : nat) (remaining : pystr) (chunks : list pystr) :
  remaining <> [] -> trimmed remaining ->
  split_loop tokenizer source_lang 50 fuel remaining chunks = None.
Proof.
  intros Hr Ht. induction fuel as [|f IH].
  - destruct remaining; [congruence | reflexivity].
  - destruct remaining as [|c t] eqn:E; [congruence|].
    cbn [split_loop]. rewrite <- E in *.
    rewrite iteration_stalls by assumption. rewrite E at 1. rewrite <- E.
    exact IH.
Qed.

End ZeroBudget.

(** X17.  At [max_tokens = 50] the safe budget is zero.  If the tokenizer
    then counts at least one token for every non-empty string, the fallback
    length is zero, a pass of the loop takes nothing off [remaining], and
    the loop does not end on any text that is not blank: no number of passes
    gives a result. *)
Theorem zero_budget_never_returns (tokenizer : option Tokenizer)
    (source_lang : pystr) (fuel : nat) (text : pystr) :
  (forall s : pystr,
      s <> [] -> 1 <= value (get_token_count tokenizer s source_lang)) ->
  Py.strip text <> [] ->
  split_text_into_chunks tokenizer source_lang 50 fuel text = None.
Proof.
  intros Hcost Hne. unfold split_text_into_chunks.
  assert (Ht : text <> []) by (intros ->; apply Hne; reflexivity).
  pose proof (nothing_fits tokenizer source_lang Hcost text Ht) as Hf.
  unfold fits in Hf. rewrite Hf.
  apply split_loop_stalls; [exact Hcost | exact Hne | apply TrimFacts.strip_trimmed].
Qed.

Lemma zero_budget_never_returns_witness :
  split_text_into_chunks (Some one_per_char) (Py.lit "eng_Latn") 50 1000
    (Py.lit "hello world") = None.
Proof.
  apply (zero_budget_never_returns (Some one_per_char) (Py.lit "eng_Latn") 1000
           (Py.lit "hello world")).
  - intros s Hs. destruct s as [|c t]; [congruence|].
    cbn [get_token_count encode one_per_char value map length]. lia.
  - vm_compute. discriminate.
Defined.

(** ** The character estimate *)

(** X18.  A token count is never negative.  When the tokenizer is not
    loaded, the estimate is at most the number of characters and never
    smaller for a longer text of the same language. *)
Theorem token_count_bounds (source_lang : pystr) :
  (forall tokenizer text,
      0 <= value (get_token_count tokenizer text source_lang))
  /\ (forall text,
        value (get_token_count None text source_lang) <= Py.len text)
  /\ (forall a b,
        Py.len a <= Py.len b ->
        value (get_token_count None a source_lang)
        <= value (get_token_count None b source_lang)).
Proof.
  split; [|split].
  - intros tokenizer text. apply get_token_count_nonneg.
  - intros text. cbn [get_token_count]. unfold fallback_count.
    pose proof (PyFacts.len_nonneg text) as Hl.
    destruct (_ || _); cbn [value].
    + apply Z.div_le_upper_bound; lia.
    + apply Z.div_le_upper_bound; lia.
  - intros a b Hab. cbn [get_token_count]. apply fallback_count_mono.
    unfold Py.len in Hab. lia.
Qed.

Lemma token_count_bounds_witness :
  value (get_token_count None (Py.lit "abc") (Py.lit "zho_Hans"))
  <= value (get_token_count None (Py.lit "abcdefgh") (Py.lit "zho_Hans")).
Proof.
  apply (token_count_bounds (Py.lit "zho_Hans")). vm_compute. discriminate.
Defined.
